(** * air_quality: the field classifier and the AQI calculator

    A shallow embedding of the class [AQIAutoDetector] of [app3.py] and
    [pipline_code.py]: the breakpoint table [bps], [get_sub_index], the
    per-image classification of OCR detections and the computation of
    [Final_AQI].

    Numbers.  Python's [float] and [int] values are modelled by the rational
    they denote ([Q]) and arithmetic is exact: the rounding of binary
    floating-point operations is not modelled, except in the two products
    [0.35 * w] and [0.65 * w] of the band test, which are rounded to doubles
    as Python rounds them, because the comparison at the edge of the band
    depends on it.  Equality of computed values is [Qeq].  Exceptions are
    modelled by the [result] type below.  The OCR engine, the clock and the
    file system are outside the program: their answers are inputs of the
    model. *)

From Stdlib Require Import QArith Qround Qabs Qpower ZArith List String Ascii Bool.
From Stdlib Require Import Lia Lqa Permutation Sorted DecimalString.
Import ListNotations.
Open Scope Q_scope.

(** ** Python run-time primitives used by the two scripts *)
Module Py.

Inductive exn : Type :=
| ValueError
| ZeroDivisionError
| IndexError
| ExternalError (name : string).  (* raised inside a library call, by class name *)

Inductive result (A : Type) : Type :=
| Ok (a : A)
| Raise (e : exn).
Arguments Ok {A} a.
Arguments Raise {A} e.

Definition bind {A B : Type} (r : result A) (k : A -> result B) : result B :=
  match r with
  | Ok a => k a
  | Raise e => Raise e
  end.

(** [r ~~> q]: the computation returns normally a number equal to [q]. *)
Definition returns (r : result Q) (q : Q) : Prop :=
  match r with
  | Ok v => v == q
  | Raise _ => False
  end.

(** [a / b]: true division, [ZeroDivisionError] on a zero divisor. *)
Definition div (a b : Q) : result Q :=
  if Qeq_bool b 0 then Raise ZeroDivisionError else Ok (a / b).

Definition Qlt_bool (a b : Q) : bool := negb (Qle_bool b a).

(** [max(a, b, c)]: the first of the largest items. *)
Definition max3 (a b c : Q) : Q :=
  let m := a in
  let m := if Qlt_bool m b then b else m in
  if Qlt_bool m c then c else m.

(** [round(x)] with one argument: the nearest integer, a tie going to the
    even neighbour. *)
Definition round (x : Q) : Z :=
  let f := Qfloor x in
  match Qcompare (x - inject_Z f) (1 # 2) with
  | Lt => f
  | Gt => (f + 1)%Z
  | Eq => if Z.even f then f else (f + 1)%Z
  end.

(** [sum(l)]. *)
Definition sum (l : list Q) : Q := fold_left Qplus l 0.

(** [l[i]] for a non-negative index. *)
Definition getitem {A : Type} (l : list A) (i : nat) : result A :=
  match nth_error l i with
  | Some a => Ok a
  | None => Raise IndexError
  end.

(** [l[-4:]]: the last four items, the whole list when it is shorter. *)
Definition last4 {A : Type} (l : list A) : list A :=
  skipn (List.length l - 4) l.

(** *** Strings.  The OCR engine is called with [allowlist='0123456789.'];
    a character is an ASCII character. *)
Definition is_digit (c : ascii) : bool :=
  (48 <=? nat_of_ascii c)%nat && (nat_of_ascii c <=? 57)%nat.

Fixpoint all_digits (s : string) : bool :=
  match s with
  | EmptyString => true
  | String c r => is_digit c && all_digits r
  end.

(** [s.isdigit()]: at least one character, and every character a digit. *)
Definition isdigit (s : string) : bool :=
  match s with
  | EmptyString => false
  | String _ _ => all_digits s
  end.

(** [s.replace(old, '', 1)] for a one-character [old]: the first occurrence
    of [old] is dropped. *)
Fixpoint replace1 (old : ascii) (s : string) : string :=
  match s with
  | EmptyString => EmptyString
  | String c r => if Ascii.eqb c old then r else String c (replace1 old r)
  end.

Definition digit_val (c : ascii) : Z := (Z.of_nat (nat_of_ascii c) - 48)%Z.

Fixpoint digits_value (acc : Z) (s : string) : Z :=
  match s with
  | EmptyString => acc
  | String c r => digits_value (10 * acc + digit_val c)%Z r
  end.

(** The text before the first ['.'] and, when there is one, the text after it. *)
Fixpoint split_dot (s : string) : string * option string :=
  match s with
  | EmptyString => (EmptyString, None)
  | String c r =>
      if Ascii.eqb c "."
      then (EmptyString, Some r)
      else let (a, b) := split_dot r in (String c a, b)
  end.

Definition is_empty (s : string) : bool :=
  match s with
  | EmptyString => true
  | String _ _ => false
  end.

(** [float(s)] on the strings the OCR allowlist can produce, those made of
    digits and ['.']: digits, then possibly a point and digits, with a digit
    on at least one side of the point; [ValueError] otherwise.  (Python's
    [float] also reads signs, exponents, blanks, underscores, [inf] and [nan];
    none of them can be spelled with the allowlist, and the classifier calls
    [float] only behind its [isdigit] test.) *)
Definition float (s : string) : result Q :=
  match split_dot s with
  | (ip, None) =>
      if isdigit ip then Ok (inject_Z (digits_value 0 ip)) else Raise ValueError
  | (ip, Some fp) =>
      if all_digits ip && all_digits fp && negb (is_empty ip && is_empty fp)
      then Ok (inject_Z (digits_value 0 ip)
               + inject_Z (digits_value 0 fp)
                 / inject_Z (10 ^ Z.of_nat (String.length fp)))
      else Raise ValueError
  end.

(** *** Sorting a list of pairs of numbers.  [t1 < t2] on tuples compares the
    first items that differ. *)
Definition tuple_lt (t1 t2 : Q * Q) : bool :=
  if negb (Qeq_bool (fst t1) (fst t2)) then Qlt_bool (fst t1) (fst t2)
  else if negb (Qeq_bool (snd t1) (snd t2)) then Qlt_bool (snd t1) (snd t2)
  else false.

(** [l.sort()]: the stable sort for [<]; an item taken from the front goes
    before the first sorted item that is not below it. *)
Fixpoint insert (x : Q * Q) (l : list (Q * Q)) : list (Q * Q) :=
  match l with
  | [] => [x]
  | y :: r => if tuple_lt y x then y :: insert x r else x :: l
  end.

Fixpoint sort (l : list (Q * Q)) : list (Q * Q) :=
  match l with
  | [] => []
  | x :: r => insert x (sort r)
  end.

(** [int(x)] on a number: the fraction is cut off, towards zero. *)
Definition int_ (x : Q) : Z := Z.quot (Qnum x) (Zpos (Qden x)).

(** [str(n)] for an [int]: its decimal digits, with a minus sign when negative. *)
Definition str_int (n : Z) : string := NilZero.string_of_int (Z.to_int n).

(** [c.lower()] on an ASCII character. *)
Definition lower_char (c : ascii) : ascii :=
  let n := nat_of_ascii c in
  if (65 <=? n)%nat && (n <=? 90)%nat then ascii_of_nat (n + 32) else c.

(** [s.lower()] on an ASCII string. *)
Fixpoint lower (s : string) : string :=
  match s with
  | EmptyString => EmptyString
  | String c r => String (lower_char c) (lower r)
  end.

(** [s.endswith(suffix)]. *)
Fixpoint endswith (s suffix : string) : bool :=
  String.eqb s suffix
  || match s with
     | EmptyString => false
     | String _ r => endswith r suffix
     end.

(** [s.endswith((suffix1, suffix2, ...))]. *)
Definition endswith_any (s : string) (suffixes : list string) : bool :=
  existsb (endswith s) suffixes.

(** *** Binary floating point, where the rounding decides a comparison.
    [ilog2 x] is the integer part of the base-2 logarithm of a positive [x]. *)
Definition ilog2 (x : Q) : Z :=
  let l := (Z.log2 (Qnum x) - Z.log2 (Zpos (Qden x)))%Z in
  if Qle_bool (2 ^ l) x then l else (l - 1)%Z.

(** [fround x]: the double (IEEE 754 binary64) nearest to [x], a tie going to
    the even significand; this is how Python rounds a float literal, the
    conversion of an [int] and the result of a float operation.  The
    significand has 53 bits and the exponent of its last bit is at least
    -1074; the numbers met here are far below the overflow threshold
    [2 ^ 1024]. *)
Definition fround (x : Q) : Q :=
  if Qeq_bool x 0 then 0
  else
    let e := Z.max (ilog2 (Qabs x) - 52) (-1074) in
    inject_Z (round (x / 2 ^ e)) * 2 ^ e.

(** [float(n)] for an [int], as done when an [int] meets a [float]. *)
Definition float_of_int (n : Z) : Q := fround (inject_Z n).

(** [a * b] on floats. *)
Definition fmul (a b : Q) : Q := fround (a * b).

End Py.

Import Py.

Declare Scope py_scope.
Delimit Scope py_scope with py.
Notation "x <- c ;; k" := (Py.bind c (fun x => k))
  (at level 61, c at next level, right associativity) : py_scope.
Notation "r ~~> q" := (Py.returns r q) (at level 70, no associativity) : py_scope.
Open Scope py_scope.

(** ** class AQIAutoDetector: the part both files share, character for character *)
Module Detector.

(** A breakpoint band [(clo, chi, ilo, ihi)]. *)
Definition band : Type := (Q * Q * Q * Q)%type.

(** [self.bps], a dict literal with three string keys, in source order. *)
Definition bps : list (string * list band) :=
  [ ("PM25"%string,
      [ (0, 30, 0, 50); (31, 60, 51, 100); (61, 90, 101, 200);
        (91, 120, 201, 300); (121, 250, 301, 400); (250, 500, 401, 500) ]);
    ("PM10"%string,
      [ (0, 50, 0, 50); (51, 100, 51, 100); (101, 250, 101, 200);
        (251, 350, 201, 300); (351, 430, 301, 400); (430, 500, 401, 500) ]);
    ("CO"%string,
      [ (0, 1, 0, 50); (11 # 10, 2, 51, 100); (21 # 10, 10, 101, 200);
        (101 # 10, 17, 201, 300); (171 # 10, 34, 301, 400);
        (341 # 10, 100, 401, 500) ]) ].

(** [d[key]] / [key in d] on a dict given by its items. *)
Fixpoint dict_get {V : Type} (d : list (string * V)) (key : string) : option V :=
  match d with
  | [] => None
  | (k, v) :: rest => if String.eqb k key then Some v else dict_get rest key
  end.

(** [clo <= conc <= chi]. *)
Definition in_band (conc : Q) (b : band) : bool :=
  let '(clo, chi, _, _) := b in Qle_bool clo conc && Qle_bool conc chi.

(** The [for] loop of [get_sub_index] and the [return 500] after it. *)
Fixpoint scan_bands (conc : Q) (bands : list band) : result Q :=
  match bands with
  | [] => Ok 500
  | (clo, chi, ilo, ihi) :: rest =>
      if Qle_bool clo conc && Qle_bool conc chi
      then slope <- Py.div (ihi - ilo) (chi - clo) ;;
           Ok (slope * (conc - clo) + ilo)
      else scan_bands conc rest
  end.

Definition get_sub_index (conc : Q) (pollutant : string) : result Q :=
  match dict_get bps pollutant with
  | None => Ok 0
  | Some bands =>
      if Qle_bool conc 0 then Ok 0 else scan_bands conc bands
  end.

End Detector.

Import Detector.

(** ** The field classifier and the row, as both files have them *)
Module Classifier.

(** One item of [raw_results]: [(bbox, text, prob)]; a corner of [bbox] is
    [(p[0], p[1])]. *)
Record detection : Type := {
  bbox : list (Q * Q);
  text : string;
  prob : Q
}.

(** The row dict; its keys are fixed. *)
Record row : Type := {
  Filename : string;
  Timestamp : string;
  PM25 : Q;
  PM10 : Q;
  CO : Q;
  CO2 : Q;
  Final_AQI : Q
}.

Definition center_y (d : detection) : Q := Py.sum (map snd (bbox d)) / 4.
Definition center_x (d : detection) : Q := Py.sum (map fst (bbox d)) / 4.

(** The two bounds [0.35 * w] and [0.65 * w] as Python computes them: the
    literal is the double nearest to the decimal, [w] is an [int] (a dimension
    of the image array) turned into a float, and the product is rounded. *)
Definition band_lo (w : Z) : Q := Py.fmul (Py.fround (35 # 100)) (Py.float_of_int w).
Definition band_hi (w : Z) : Q := Py.fmul (Py.fround (65 # 100)) (Py.float_of_int w).

(** [0.35 * w < center_x < 0.65 * w].  The corners of a box are pixel
    positions, whole numbers, so that [center_x] is computed without
    rounding. *)
Definition in_center_band (w : Z) (cx : Q) : bool :=
  Py.Qlt_bool (band_lo w) cx && Py.Qlt_bool cx (band_hi w).

(** The body of the loop over [raw_results]: what one detection appends to
    [detected_numbers], if anything. *)
Definition classify_detection (w : Z) (d : detection) : result (option (Q * Q)) :=
  if Py.isdigit (Py.replace1 "." (text d)) then
    if in_center_band w (center_x d) then
      v <- Py.float (text d) ;;
      Ok (Some (center_y d, v))
    else Ok None
  else Ok None.

(** The loop: [detected_numbers] after the last detection. *)
Fixpoint collect (w : Z) (raw_results : list detection)
    (detected_numbers : list (Q * Q)) : result (list (Q * Q)) :=
  match raw_results with
  | [] => Ok detected_numbers
  | d :: rest =>
      r <- classify_detection w d ;;
      match r with
      | Some entry => collect w rest (detected_numbers ++ [entry])
      | None => collect w rest detected_numbers
      end
  end.

End Classifier.

Import Classifier.

(** ** app3.py *)
Module App3.

(** Lines 38-44: the sort and the four pollutant fields
    [(PM25, PM10, CO, CO2)]. *)
Definition assign_by_unpacking (detected_numbers : list (Q * Q)) : result (Q * Q * Q * Q) :=
  let detected_numbers := Py.sort detected_numbers in
  if (4 <=? List.length detected_numbers)%nat then
    let target_vals := Py.last4 detected_numbers in
    match map snd target_vals with
    | [a; b; c; d] => Ok (a, b, c, d)
    | _ => Raise ValueError
    end
  else Ok (0, 0, 0, 0).

(** [process_image_data(img, filename)].  The image enters through
    [img.shape[:2] = (h, w)] and through what [self.reader.readtext] returns on
    it, [raw_results]; [now] is [datetime.now().isoformat()]. *)
Definition process_image_data (raw_results : list detection) (h w : Z)
    (filename now : string) : result row :=
  detected_numbers <- collect w raw_results [] ;;
  fields <- assign_by_unpacking detected_numbers ;;
  let '(pm25, pm10, co, co2) := fields in
  si_pm25 <- get_sub_index pm25 "PM25" ;;
  si_pm10 <- get_sub_index pm10 "PM10" ;;
  si_co <- get_sub_index co "CO" ;;
  Ok {| Filename := filename; Timestamp := now;
        PM25 := pm25; PM10 := pm10; CO := co; CO2 := co2;
        Final_AQI := inject_Z (Py.round (Py.max3 si_pm25 si_pm10 si_co)) |}.

(** [get_aqi_status(aqi)]: the status and its colour. *)
Definition get_aqi_status (aqi : Q) : string * string :=
  if Qle_bool aqi 50 then ("Good"%string, "#00e400"%string)
  else if Qle_bool aqi 100 then ("Satisfactory"%string, "#92d050"%string)
  else if Qle_bool aqi 200 then ("Moderate"%string, "#ffff00"%string)
  else if Qle_bool aqi 300 then ("Poor"%string, "#ff9900"%string)
  else if Qle_bool aqi 400 then ("Very Poor"%string, "#ff0000"%string)
  else ("Severe"%string, "#7e0023"%string).

(** The header of the dashboard for the latest row of the log (lines 103-108):
    the status, its colour, and [int(latest['Final_AQI'])]. *)
Definition status_header (latest : row) : string * string * Z :=
  let '(status_text, status_color) := get_aqi_status (Final_AQI latest) in
  (status_text, status_color, Py.int_ (Final_AQI latest)).


End App3.

(** ** pipline_code.py *)
Module Pipeline.

(** Lines 53-69. *)
Definition assign_by_index (detected_numbers : list (Q * Q)) : result (Q * Q * Q * Q) :=
  let detected_numbers := Py.sort detected_numbers in
  if (4 <=? List.length detected_numbers)%nat then
    let target_vals := Py.last4 detected_numbers in
    t0 <- Py.getitem target_vals 0 ;;
    t1 <- Py.getitem target_vals 1 ;;
    t2 <- Py.getitem target_vals 2 ;;
    t3 <- Py.getitem target_vals 3 ;;
    Ok (snd t0, snd t1, snd t2, snd t3)
  else Ok (0, 0, 0, 0).

(** The body of the loop of [run] for one file that was read as an image
    (lines 38-77): the row appended to [all_data]. *)
Definition run_body (raw_results : list detection) (h w : Z)
    (filename now : string) : result row :=
  detected_numbers <- collect w raw_results [] ;;
  fields <- assign_by_index detected_numbers ;;
  let '(pm25, pm10, co, co2) := fields in
  si_pm25 <- get_sub_index pm25 "PM25" ;;
  si_pm10 <- get_sub_index pm10 "PM10" ;;
  si_co <- get_sub_index co "CO" ;;
  Ok {| Filename := filename; Timestamp := now;
        PM25 := pm25; PM10 := pm10; CO := co; CO2 := co2;
        Final_AQI := Py.max3 si_pm25 si_pm10 si_co |}.

(** What the program sees of an image: [img.shape[:2]] and what the call
    [self.reader.readtext(img, ...)] does on it, which is to return the
    detections or to raise. *)
Record image : Type := {
  shape : Z * Z;
  readtext : result (list detection)
}.

(** One name of [os.listdir(base_path)] with what [cv2.imread] returns for that
    file: [None], or an image. *)
Record dir_entry : Type := {
  entry_name : string;
  imread : option image
}.

(** [filename.lower().endswith(('.jpg', '.png', '.jpeg'))]. *)
Definition is_image_name (filename : string) : bool :=
  Py.endswith_any (Py.lower filename) [ ".jpg"; ".png"; ".jpeg" ]%string.

(** The line printed for a row (line 78). *)
Definition aqi_line (filename : string) (r : row) : string :=
  (" " ++ filename ++ " -> AQI: " ++ Py.str_int (Py.int_ (Final_AQI r)))%string.

(** The loop of [run] over the names of the folder.  [clock n] is what
    [datetime.now().isoformat()] answers at its call number [n]; [all_data] and
    [printed] are the rows and the lines so far.  The result is what has been
    printed, with the rows gathered or the exception that ended the loop. *)
Fixpoint run_loop (clock : nat -> string) (listing : list dir_entry)
    (all_data : list row) (printed : list string)
    : list string * result (list row) :=
  match listing with
  | [] => (printed, Ok all_data)
  | e :: rest =>
      if negb (is_image_name (entry_name e)) then run_loop clock rest all_data printed
      else
        match imread e with
        | None => run_loop clock rest all_data printed
        | Some img =>
            match readtext img with
            | Raise x => (printed, Raise x)
            | Ok raw_results =>
                match run_body raw_results (fst (shape img)) (snd (shape img))
                        (entry_name e) (clock (List.length all_data)) with
                | Raise x => (printed, Raise x)
                | Ok r =>
                    run_loop clock rest (all_data ++ [r])
                      (printed ++ [aqi_line (entry_name e) r])
                end
            end
        end
  end.

(** [run(folder)].  [listdir] is what [os.listdir(base_path)] does, to return
    the names or to raise (a missing folder); [to_csv rows] is what
    [pd.DataFrame(rows).to_csv("aqi_logs.csv", index=False)] does, to write
    the log or to raise.  The result is what has been printed, with the rows
    written to the log or the exception that ended the run. *)
Definition run (clock : nat -> string) (listdir : result (list dir_entry))
    (to_csv : list row -> result unit) : list string * result (list row) :=
  match listdir with
  | Raise x => ([], Raise x)
  | Ok listing =>
      match run_loop clock listing [] [] with
      | (printed, Raise x) => (printed, Raise x)
      | (printed, Ok all_data) =>
          match to_csv all_data with
          | Raise x => (printed, Raise x)
          | Ok _ =>
              (printed ++ [ String "010" "--- Pipeline Complete! CSV Updated ---" ],
               Ok all_data)
          end
      end
  end.

End Pipeline.

(** ** The specification's own words, to be compared with the code *)
Module Spec.

(** The sentence of the specification, word for word: 0 for a non-positive
    concentration or an unknown pollutant, else the interpolation in the first
    band that holds the concentration, else 500. *)
Definition known_pollutant (pollutant : string) : bool :=
  String.eqb pollutant "PM25" || String.eqb pollutant "PM10"
  || String.eqb pollutant "CO".

Definition bands_of (pollutant : string) : list band :=
  match dict_get bps pollutant with
  | Some bands => bands
  | None => []
  end.

Definition sub_index_spec (conc : Q) (pollutant : string) : Q :=
  if Qle_bool conc 0 || negb (known_pollutant pollutant) then 0
  else match find (in_band conc) (bands_of pollutant) with
       | Some (clo, chi, ilo, ihi) =>
           ilo + (ihi - ilo) / (chi - clo) * (conc - clo)
       | None => 500
       end.


(** The bands of a pollutant that hold a concentration. *)
Definition matching_bands (conc : Q) (pollutant : string) : list band :=
  filter (in_band conc) (bands_of pollutant).

(** The upper end of the range a pollutant's bands are meant to cover. *)
Definition table_max (pollutant : string) : Q :=
  match rev (bands_of pollutant) with
  | (_, chi, _, _) :: _ => chi
  | [] => 0
  end.

(** The pairs of bands that follow one another in a pollutant's list: the
    band boundaries of the table. *)
Definition adjacent_bands (bands : list band) : list (band * band) :=
  combine bands (tl bands).





(** A band with distinct, increasing concentration bounds and index bounds
    within [0, 500]. *)
Definition band_wf (b : band) : bool :=
  let '(clo, chi, ilo, ihi) := b in
  Py.Qlt_bool clo chi && Qle_bool 0 ilo && Qle_bool ilo ihi && Qle_bool ihi 500.

(** The order of [sort] on tuples: below or equal, and strictly below. *)
Definition lex_le (a b : Q * Q) : Prop := Py.tuple_lt b a = false.
Definition lex_lt (a b : Q * Q) : Prop := Py.tuple_lt a b = true.

(** Sorted by [center_y], ascending. *)
Definition sorted_by_center_y (l : list (Q * Q)) : Prop :=
  StronglySorted (fun a b => fst a <= fst b) l.

(** The six statuses with their colours, mildest first. *)
Definition palette : list (string * string) :=
  [ ("Good", "#00e400"); ("Satisfactory", "#92d050"); ("Moderate", "#ffff00");
    ("Poor", "#ff9900"); ("Very Poor", "#ff0000"); ("Severe", "#7e0023") ]%string.

(** The index range of each status, mildest first. *)
Definition index_ranges : list (Q * Q) :=
  [ (0, 50); (51, 100); (101, 200); (201, 300); (301, 400); (401, 500) ].

(** The position of the first band that holds a concentration. *)
Fixpoint first_match (conc : Q) (bands : list band) : option nat :=
  match bands with
  | [] => None
  | b :: rest =>
      if in_band conc b then Some O
      else match first_match conc rest with
           | Some i => Some (S i)
           | None => None
           end
  end.

(** Every later band starts where an earlier one ends or above, in
    concentration and in index. *)
Definition band_before (b b' : band) : bool :=
  let '(_, chi, _, ihi) := b in
  let '(clo', _, ilo', _) := b' in
  Qle_bool chi clo' && Qle_bool ihi ilo'.

Fixpoint bands_ordered (bands : list band) : bool :=
  match bands with
  | [] => true
  | b :: rest => forallb (band_before b) rest && bands_ordered rest
  end.

(** A band on which a positive concentration has a positive sub-index. *)
Definition band_positive (b : band) : bool :=
  let '(clo, _, ilo, ihi) := b in
  Py.Qlt_bool 0 ilo || (Qle_bool clo 0 && Py.Qlt_bool ilo ihi).

(** What one detection contributes to [detected_numbers]. *)
Definition kept (w : Z) (d : detection) : list (Q * Q) :=
  match classify_detection w d with
  | Ok (Some entry) => [entry]
  | _ => []
  end.

(** No two entries are equal as tuples. *)
Definition distinct_entries (l : list (Q * Q)) : Prop :=
  ForallOrdPairs (fun a b => Py.tuple_lt a b = true \/ Py.tuple_lt b a = true) l.

(** The entries on which [readtext] is not called, or returns. *)
Definition reads_ok (e : Pipeline.dir_entry) : bool :=
  match Pipeline.imread e with
  | Some img => match Pipeline.readtext img with
                | Ok _ => true
                | Raise _ => false
                end
  | None => true
  end.

(** The files of a listing that [run] hands to the OCR engine. *)
Definition processed (e : Pipeline.dir_entry) : bool :=
  Pipeline.is_image_name (Pipeline.entry_name e)
  && match Pipeline.imread e with
     | Some _ => true
     | None => false
     end.

End Spec.

Import Spec.

(** ** Concrete displays used to run the two components *)
Module Samples.

(** A detection read as [t] whose box is the square of side 2 around [(x, y)]. *)
Definition box_at (x y : Q) (t : string) : detection :=
  {| bbox := [ (x - 1, y - 1); (x + 1, y - 1); (x + 1, y + 1); (x - 1, y + 1) ];
     text := t;
     prob := 9 # 10 |}.

(** A display 100 pixels wide showing, top to bottom in its middle column,
    PM2.5 = 45, PM10 = 20, CO = 0.5 and CO2 = 400. *)
Definition display_45 : list detection :=
  [ box_at 50 10 "45"; box_at 50 20 "20"; box_at 50 30 "0.5"; box_at 50 40 "400" ].

(** A display showing PM2.5 = 90, PM10 = 0, CO = 0 and CO2 = 415. *)
Definition display_90 : list detection :=
  [ box_at 50 10 "90"; box_at 50 20 "0"; box_at 50 30 "0"; box_at 50 40 "415" ].

(** A display with three readings only, and one label column reading at the
    right edge. *)
Definition display_short : list detection :=
  [ box_at 50 10 "45"; box_at 50 20 "20"; box_at 90 20 "7"; box_at 50 30 "400" ].

(** The readings of [display_45] written with trailing zeros, with another
    CO2 reading, on a wider image. *)
Definition display_45_zeros : list detection :=
  [ box_at 100 10 "45.0"; box_at 100 20 "20"; box_at 100 30 "0.50"; box_at 100 40 "999" ].

(** A folder: an image, a text file, a file that [cv2.imread] cannot read, and
    another image. *)
Definition folder_ok : list Pipeline.dir_entry :=
  [ {| Pipeline.entry_name := "a.JPG";
       Pipeline.imread := Some {| Pipeline.shape := (100%Z, 100%Z);
                                  Pipeline.readtext := Ok display_45 |} |};
    {| Pipeline.entry_name := "notes.txt"; Pipeline.imread := None |};
    {| Pipeline.entry_name := "c.png"; Pipeline.imread := None |};
    {| Pipeline.entry_name := "d.jpeg";
       Pipeline.imread := Some {| Pipeline.shape := (100%Z, 100%Z);
                                  Pipeline.readtext := Ok display_90 |} |} ].

(** A folder on whose second image the OCR engine raises. *)
Definition folder_bad : list Pipeline.dir_entry :=
  [ {| Pipeline.entry_name := "a.JPG";
       Pipeline.imread := Some {| Pipeline.shape := (100%Z, 100%Z);
                                  Pipeline.readtext := Ok display_45 |} |};
    {| Pipeline.entry_name := "b.png";
       Pipeline.imread := Some {| Pipeline.shape := (100%Z, 100%Z);
                                  Pipeline.readtext :=
                                    Raise (Py.ExternalError "RuntimeError") |} |};
    {| Pipeline.entry_name := "c.jpg";
       Pipeline.imread := Some {| Pipeline.shape := (100%Z, 100%Z);
                                  Pipeline.readtext := Ok display_90 |} |} ].

End Samples.

(** ** Facts about the table *)

Lemma bps_wf :
  forallb (fun kv => forallb band_wf (snd kv)) bps = true.
Proof. reflexivity. Qed.

Lemma Qlt_bool_iff (a b : Q) : Py.Qlt_bool a b = true <-> a < b.
Proof.
  unfold Py.Qlt_bool. rewrite negb_true_iff.
  split; intro H.
  - apply Qnot_le_lt. intro Hle. apply Qle_bool_iff in Hle. congruence.
  - destruct (Qle_bool b a) eqn:E; [|reflexivity].
    apply Qle_bool_iff in E. exfalso. apply (Qlt_not_le _ _ H E).
Qed.

Lemma dict_get_In {V : Type} (d : list (string * V)) key v :
  dict_get d key = Some v -> In (key, v) d.
Proof.
  induction d as [|[k w] d IH]; simpl; [discriminate|].
  destruct (String.eqb k key) eqn:E.
  - intros [= ->]. apply String.eqb_eq in E. subst. now left.
  - intro H. right. auto.
Qed.

Lemma bps_bands_wf pollutant bands :
  dict_get bps pollutant = Some bands -> forallb band_wf bands = true.
Proof.
  intro H. apply dict_get_In in H.
  pose proof bps_wf as W. rewrite forallb_forall in W.
  apply (W _ H).
Qed.

Lemma known_pollutant_iff pollutant :
  known_pollutant pollutant = true <-> dict_get bps pollutant <> None.
Proof.
  unfold known_pollutant, bps, dict_get.
  rewrite (String.eqb_sym pollutant "PM25"), (String.eqb_sym pollutant "PM10"),
    (String.eqb_sym pollutant "CO").
  destruct (String.eqb "PM25" pollutant); [simpl; split; congruence|].
  destruct (String.eqb "PM10" pollutant); [simpl; split; congruence|].
  destruct (String.eqb "CO" pollutant); simpl; split; congruence.
Qed.

(** On well-formed bands the loop returns what the first matching band gives. *)
Lemma scan_bands_find conc bands :
  forallb band_wf bands = true ->
  scan_bands conc bands ~~>
    match find (in_band conc) bands with
    | Some (clo, chi, ilo, ihi) => ilo + (ihi - ilo) / (chi - clo) * (conc - clo)
    | None => 500
    end.
Proof.
  induction bands as [|[[[clo chi] ilo] ihi] rest IH]; simpl; intro W.
  - reflexivity.
  - apply andb_true_iff in W as [Wb Wr].
    destruct (Qle_bool clo conc && Qle_bool conc chi) eqn:E.
    + unfold Py.div.
      repeat (apply andb_true_iff in Wb as [Wb ?]).
      apply Qlt_bool_iff in Wb.
      destruct (Qeq_bool (chi - clo) 0) eqn:Z.
      * apply Qeq_bool_iff in Z. lra.
      * simpl. ring.
    + auto.
Qed.

(** C1.  [get_sub_index] never raises and returns what the specification's
    sentence says: 0 for a concentration [<= 0] or a pollutant other than
    PM25, PM10, CO; otherwise the interpolation
    [ilo + (ihi - ilo) / (chi - clo) * (conc - clo)] in the first band, in table
    order, with [clo <= conc <= chi]; 500 when no band matches.  In particular
    the sub-index of PM25 is 0 at 0 and at -5, and 500 at 1000. *)
Theorem get_sub_index_spec :
  (forall conc pollutant,
      get_sub_index conc pollutant ~~> sub_index_spec conc pollutant)
  /\ get_sub_index 0 "PM25" = Ok 0
  /\ get_sub_index (-5) "PM25" = Ok 0
  /\ get_sub_index 1000 "PM25" = Ok 500.
Proof.
  split; [|repeat split; reflexivity].
  intros conc pollutant.
  unfold get_sub_index, sub_index_spec, bands_of.
  destruct (dict_get bps pollutant) as [bands|] eqn:D.
  - assert (K : known_pollutant pollutant = true)
      by (apply known_pollutant_iff; congruence).
    rewrite K. simpl. rewrite orb_false_r.
    destruct (Qle_bool conc 0); [reflexivity|].
    apply scan_bands_find. eapply bps_bands_wf; eauto.
  - assert (K : known_pollutant pollutant = false).
    { destruct (known_pollutant pollutant) eqn:K; [|reflexivity].
      apply known_pollutant_iff in K. congruence. }
    rewrite K. simpl. rewrite orb_true_r. reflexivity.
Qed.

(** ** The range of the sub-index *)

Lemma interpolation_range clo chi ilo ihi conc :
  clo < chi -> ilo <= ihi -> clo <= conc <= chi ->
  ilo <= (ihi - ilo) / (chi - clo) * (conc - clo) + ilo <= ihi.
Proof.
  intros Hc Hi [Hlo Hhi].
  set (t := (conc - clo) / (chi - clo)).
  assert (Ht : 0 <= t <= 1).
  { unfold t. split.
    - apply Qle_shift_div_l; lra.
    - apply Qle_shift_div_r; lra. }
  assert (E : (ihi - ilo) / (chi - clo) * (conc - clo) == (ihi - ilo) * t).
  { unfold t. field. lra. }
  rewrite E. destruct Ht as [H0 H1].
  assert (P : 0 <= (ihi - ilo) * t) by (apply Qmult_le_0_compat; lra).
  assert (U : (ihi - ilo) * t <= (ihi - ilo) * 1).
  { apply Qmult_le_compat_nonneg; split; lra. }
  lra.
Qed.

Lemma scan_bands_range conc bands :
  forallb band_wf bands = true ->
  exists v, scan_bands conc bands = Ok v /\ 0 <= v <= 500.
Proof.
  induction bands as [|[[[clo chi] ilo] ihi] rest IH]; simpl; intro W.
  - exists 500. split; [reflexivity | lra].
  - apply andb_true_iff in W as [Wb Wr].
    destruct (Qle_bool clo conc && Qle_bool conc chi) eqn:E; [|auto].
    apply andb_true_iff in E as [E1 E2].
    apply Qle_bool_iff in E1, E2.
    repeat (apply andb_true_iff in Wb as [Wb ?]).
    apply Qlt_bool_iff in Wb.
    match goal with H : Qle_bool 0 ilo = true |- _ => apply Qle_bool_iff in H end.
    match goal with H : Qle_bool ilo ihi = true |- _ => apply Qle_bool_iff in H end.
    match goal with H : Qle_bool ihi 500 = true |- _ => apply Qle_bool_iff in H end.
    unfold Py.div.
    destruct (Qeq_bool (chi - clo) 0) eqn:Z.
    + apply Qeq_bool_iff in Z. lra.
    + simpl. eexists. split; [reflexivity|].
      pose proof (interpolation_range clo chi ilo ihi conc Wb ltac:(assumption)
                    (conj E1 E2)).
      lra.
Qed.

Lemma get_sub_index_range conc pollutant :
  exists v, get_sub_index conc pollutant = Ok v /\ 0 <= v <= 500.
Proof.
  unfold get_sub_index.
  destruct (dict_get bps pollutant) as [bands|] eqn:D.
  - destruct (Qle_bool conc 0).
    + exists 0. split; [reflexivity | lra].
    + apply scan_bands_range. eapply bps_bands_wf; eauto.
  - exists 0. split; [reflexivity | lra].
Qed.

Lemma max3_cases a b c :
  Py.max3 a b c = a \/ Py.max3 a b c = b \/ Py.max3 a b c = c.
Proof.
  unfold Py.max3. destruct (Py.Qlt_bool a b).
  - destruct (Py.Qlt_bool b c); auto.
  - destruct (Py.Qlt_bool a c); auto.
Qed.

Lemma max3_range a b c lo hi :
  lo <= a <= hi -> lo <= b <= hi -> lo <= c <= hi -> lo <= Py.max3 a b c <= hi.
Proof.
  intros Ha Hb Hc.
  destruct (max3_cases a b c) as [-> | [-> | ->]]; assumption.
Qed.

Lemma round_range (x : Q) (a b : Z) :
  inject_Z a <= x <= inject_Z b -> (a <= Py.round x <= b)%Z.
Proof.
  intros [Ha Hb]. unfold Py.round.
  pose proof (Qfloor_le x) as Fl.
  assert (Fa : (a <= Qfloor x)%Z).
  { rewrite <- (Qfloor_Z a). now apply Qfloor_resp_le. }
  assert (Fb : (Qfloor x <= b)%Z).
  { rewrite <- (Qfloor_Z b). now apply Qfloor_resp_le. }
  assert (Up : inject_Z (Qfloor x) < x -> (Qfloor x + 1 <= b)%Z).
  { intro Hlt.
    assert (L : inject_Z (Qfloor x) < inject_Z b) by lra.
    rewrite <- Zlt_Qlt in L. lia. }
  destruct (Qcompare (x - inject_Z (Qfloor x)) (1 # 2)) eqn:C.
  - apply Qeq_alt in C. destruct (Z.even (Qfloor x)); [lia|].
    split; [lia|]. apply Up. lra.
  - lia.
  - apply Qgt_alt in C. split; [lia|]. apply Up. lra.
Qed.

(** ** The numeric test on a text and [float] *)

Lemma all_digits_app (a b : string) :
  Py.all_digits (a ++ b) = Py.all_digits a && Py.all_digits b.
Proof.
  induction a as [|c a IH]; simpl; [reflexivity|].
  now rewrite IH, andb_assoc.
Qed.


(** What [replace('.', '', 1)] leaves, in terms of the two sides of the point. *)
Lemma replace1_split_dot (s : string) :
  match Py.split_dot s with
  | (ip, None) => Py.replace1 "." s = s /\ ip = s
  | (ip, Some fp) => Py.replace1 "." s = (ip ++ fp)%string /\ s = (ip ++ String "." fp)%string
  end.
Proof.
  induction s as [|c s IH]; simpl; [auto|].
  destruct (Ascii.eqb c ".") eqn:E.
  - apply Ascii.eqb_eq in E. subst. simpl. auto.
  - destruct (Py.split_dot s) as [ip [fp|]]; simpl.
    + destruct IH as [-> ->]. auto.
    + destruct IH as [-> ->]. auto.
Qed.

Lemma isdigit_all_digits (s : string) :
  Py.isdigit s = true <-> Py.all_digits s = true /\ s <> EmptyString.
Proof.
  destruct s; simpl.
  - split; [discriminate | intros [_ H]; congruence].
  - split; [intro H; split; [assumption | discriminate] | tauto].
Qed.

Lemma float_accepts (s : string) :
  Py.isdigit (Py.replace1 "." s) = true -> exists v, Py.float s = Ok v.
Proof.
  intro H. unfold Py.float.
  pose proof (replace1_split_dot s) as R.
  destruct (Py.split_dot s) as [ip [fp|]].
  - destruct R as [R _]. rewrite R in H.
    apply isdigit_all_digits in H as [D N].
    rewrite all_digits_app in D. rewrite D.
    assert (E : Py.is_empty ip && Py.is_empty fp = false).
    { destruct ip; [|reflexivity]. destruct fp; [|reflexivity].
      exfalso. now apply N. }
    rewrite E. simpl. eauto.
  - destruct R as [R ->]. rewrite R in H. rewrite H. eauto.
Qed.

Lemma accepted_has_digit (s : string) :
  Py.isdigit (Py.replace1 "." s) = true ->
  exists a c b, s = (a ++ String c b)%string /\ Py.is_digit c = true.
Proof.
  intro H. destruct s as [|x s]; simpl in H; [discriminate|].
  destruct (Ascii.eqb x ".") eqn:E.
  - apply Ascii.eqb_eq in E. subst.
    destruct s as [|c r]; simpl in H; [discriminate|].
    apply andb_true_iff in H as [Hc _].
    exists "."%string, c, r. auto.
  - simpl in H. apply andb_true_iff in H as [Hx _].
    exists EmptyString, x, s. auto.
Qed.



(** ** The loop over the detections *)

Lemma classify_detection_total (w : Z) (d : detection) :
  exists r, classify_detection w d = Ok r.
Proof.
  unfold classify_detection.
  destruct (Py.isdigit (Py.replace1 "." (text d))) eqn:N; [|eauto].
  destruct (in_center_band w (center_x d)); [|eauto].
  destruct (float_accepts _ N) as [v ->]. simpl. eauto.
Qed.

Lemma collect_total (w : Z) (raw_results : list detection) :
  forall acc, exists out, collect w raw_results acc = Ok out.
Proof.
  induction raw_results as [|d rest IH]; intro acc; simpl; [eauto|].
  destruct (classify_detection_total w d) as [[e|] ->]; simpl; apply IH.
Qed.

Lemma collect_In (w : Z) (raw_results : list detection) :
  forall acc out, collect w raw_results acc = Ok out ->
  forall e, In e out ->
  In e acc \/ exists d, In d raw_results /\ classify_detection w d = Ok (Some e).
Proof.
  induction raw_results as [|d rest IH]; intros acc out H e He; simpl in H.
  - injection H as <-. auto.
  - destruct (classify_detection w d) as [[x|]|] eqn:C; simpl in H;
      [| |discriminate].
    + destruct (IH _ _ H e He) as [Hin | [d' [Hd' Hc]]].
      * apply in_app_or in Hin as [Hin | [<- | []]]; [auto|].
        right. exists d. split; [now left | assumption].
      * right. exists d'. split; [now right | assumption].
    + destruct (IH _ _ H e He) as [Hin | [d' [Hd' Hc]]]; [auto|].
      right. exists d'. split; [now right | assumption].
Qed.

(** ** The order on tuples and the sort *)

Lemma Qeq_bool_false_iff (a b : Q) : Qeq_bool a b = false <-> ~ a == b.
Proof.
  split.
  - apply Qeq_bool_neq.
  - intro H. destruct (Qeq_bool a b) eqn:E; [|reflexivity].
    apply Qeq_bool_iff in E. contradiction.
Qed.

Lemma tuple_lt_iff (a b : Q * Q) :
  Py.tuple_lt a b = true <->
  fst a < fst b \/ (fst a == fst b /\ snd a < snd b).
Proof.
  unfold Py.tuple_lt.
  destruct (Qeq_bool (fst a) (fst b)) eqn:E1; simpl.
  - apply Qeq_bool_iff in E1.
    destruct (Qeq_bool (snd a) (snd b)) eqn:E2; simpl.
    + apply Qeq_bool_iff in E2. split; [discriminate|]. lra.
    + rewrite Qlt_bool_iff. split; [auto|]. lra.
  - apply Qeq_bool_false_iff in E1. rewrite Qlt_bool_iff. split; [auto|]. lra.
Qed.

Lemma lex_le_iff (a b : Q * Q) :
  lex_le a b <-> fst a < fst b \/ (fst a == fst b /\ snd a <= snd b).
Proof.
  unfold lex_le. rewrite <- not_true_iff_false, tuple_lt_iff.
  destruct (Q_dec (fst a) (fst b)) as [[H|H]|H];
    destruct (Qlt_le_dec (snd b) (snd a)); split; intros; lra.
Qed.

Lemma lex_le_trans (a b c : Q * Q) : lex_le a b -> lex_le b c -> lex_le a c.
Proof. rewrite !lex_le_iff. lra. Qed.

Lemma lex_lt_le (a b : Q * Q) : lex_lt a b -> lex_le a b.
Proof. unfold lex_lt. rewrite tuple_lt_iff, lex_le_iff. lra. Qed.

Lemma lex_le_center_y (a b : Q * Q) : lex_le a b -> fst a <= fst b.
Proof. rewrite lex_le_iff. lra. Qed.

Lemma insert_perm (x : Q * Q) (l : list (Q * Q)) :
  Permutation (x :: l) (Py.insert x l).
Proof.
  induction l as [|y r IH]; simpl; [reflexivity|].
  destruct (Py.tuple_lt y x); [|reflexivity].
  rewrite perm_swap. now constructor.
Qed.

Lemma sort_perm (l : list (Q * Q)) : Permutation l (Py.sort l).
Proof.
  induction l as [|x r IH]; simpl; [constructor|].
  rewrite <- insert_perm. now constructor.
Qed.

Lemma sort_length (l : list (Q * Q)) : List.length (Py.sort l) = List.length l.
Proof. symmetry. apply Permutation_length, sort_perm. Qed.

Lemma insert_sorted (x : Q * Q) (l : list (Q * Q)) :
  StronglySorted lex_le l -> StronglySorted lex_le (Py.insert x l).
Proof.
  induction 1 as [|y r Sr IH Hy]; simpl.
  - repeat constructor.
  - destruct (Py.tuple_lt y x) eqn:E.
    + constructor; [assumption|].
      rewrite Forall_forall in *. intros z Hz.
      apply (Permutation_in _ (Permutation_sym (insert_perm x r))) in Hz.
      destruct Hz as [<- | Hz]; [now apply lex_lt_le | auto].
    + constructor; [now constructor|].
      constructor; [exact E|].
      rewrite Forall_forall in *. intros z Hz.
      apply lex_le_trans with y; [exact E | auto].
Qed.

Lemma sort_sorted (l : list (Q * Q)) : StronglySorted lex_le (Py.sort l).
Proof.
  induction l as [|x r IH]; simpl; [constructor | now apply insert_sorted].
Qed.

Lemma StronglySorted_weaken {A : Type} (R S : A -> A -> Prop) (l : list A) :
  (forall a b, R a b -> S a b) -> StronglySorted R l -> StronglySorted S l.
Proof.
  intros HRS. induction 1 as [|a l Sl IH Ha]; constructor; [assumption|].
  eapply Forall_impl; [|exact Ha]. auto.
Qed.

Lemma sort_sorted_by_center_y (l : list (Q * Q)) : sorted_by_center_y (Py.sort l).
Proof.
  unfold sorted_by_center_y.
  eapply StronglySorted_weaken; [|apply sort_sorted].
  apply lex_le_center_y.
Qed.

(** A strictly increasing list is the only sorted arrangement of its items. *)
Lemma sorted_perm_unique (s1 : list (Q * Q)) :
  forall s2, StronglySorted lex_lt s1 -> StronglySorted lex_le s2 ->
  Permutation s1 s2 -> s1 = s2.
Proof.
  induction s1 as [|a s1 IH]; intros s2 S1 S2 P.
  - apply Permutation_nil in P. now subst.
  - destruct s2 as [|b s2].
    { apply Permutation_sym, Permutation_nil in P. discriminate. }
    apply StronglySorted_inv in S1 as [S1 Fa].
    apply StronglySorted_inv in S2 as [S2 Fb].
    rewrite Forall_forall in Fa, Fb.
    assert (E : a = b).
    { assert (Ia : In a (b :: s2)) by (eapply Permutation_in; [exact P | now left]).
      assert (Ib : In b (a :: s1))
        by (eapply Permutation_in; [exact (Permutation_sym P) | now left]).
      destruct Ia as [-> | Ia]; [reflexivity|].
      destruct Ib as [-> | Ib]; [reflexivity|].
      pose proof (Fa _ Ib) as Hlt. pose proof (Fb _ Ia) as Hle.
      unfold lex_lt in Hlt. unfold lex_le in Hle. congruence. }
    subst b. f_equal. apply IH; auto.
    eapply Permutation_cons_inv; exact P.
Qed.

Lemma sort_strictly_increasing (s l : list (Q * Q)) :
  StronglySorted lex_lt s -> Permutation l s -> Py.sort l = s.
Proof.
  intros S P. symmetry. apply sorted_perm_unique; [assumption | apply sort_sorted |].
  rewrite <- P. apply sort_perm.
Qed.

(** ** The last four and the assignment *)

Lemma last4_shape {A : Type} (l : list A) :
  (4 <= List.length l)%nat ->
  exists pre a b c d, l = pre ++ [a; b; c; d] /\ Py.last4 l = [a; b; c; d].
Proof.
  intro H. unfold Py.last4.
  pose proof (firstn_skipn (List.length l - 4) l) as E.
  pose proof (length_skipn (List.length l - 4) l) as L.
  destruct (skipn (List.length l - 4) l) as [|a [|b [|c [|d [|e t]]]]];
    simpl in L; try lia.
  exists (firstn (List.length l - 4) l), a, b, c, d. auto.
Qed.

Lemma assign_agree (detected_numbers : list (Q * Q)) :
  App3.assign_by_unpacking detected_numbers = Pipeline.assign_by_index detected_numbers.
Proof.
  unfold App3.assign_by_unpacking, Pipeline.assign_by_index.
  destruct (4 <=? List.length (Py.sort detected_numbers))%nat eqn:E; [|reflexivity].
  apply Nat.leb_le in E.
  destruct (last4_shape _ E) as (pre & a & b & c & d & _ & ->).
  reflexivity.
Qed.

Lemma assign_total (detected_numbers : list (Q * Q)) :
  exists f, App3.assign_by_unpacking detected_numbers = Ok f.
Proof.
  unfold App3.assign_by_unpacking.
  destruct (4 <=? List.length (Py.sort detected_numbers))%nat eqn:E; [|eauto].
  apply Nat.leb_le in E.
  destruct (last4_shape _ E) as (pre & a & b & c & d & _ & ->).
  simpl. eauto.
Qed.

(** ** The two components, step by step *)

(** Either component runs to the end on every input; the row it builds is
    determined by the fields assigned and their three sub-indices. *)
Lemma components_shape (raw_results : list detection) (h w : Z)
    (filename now : string) :
  exists detected_numbers pm25 pm10 co co2 si_pm25 si_pm10 si_co,
    collect w raw_results [] = Ok detected_numbers
    /\ App3.assign_by_unpacking detected_numbers = Ok (pm25, pm10, co, co2)
    /\ get_sub_index pm25 "PM25" = Ok si_pm25
    /\ get_sub_index pm10 "PM10" = Ok si_pm10
    /\ get_sub_index co "CO" = Ok si_co
    /\ App3.process_image_data raw_results h w filename now =
         Ok {| Filename := filename; Timestamp := now;
               PM25 := pm25; PM10 := pm10; CO := co; CO2 := co2;
               Final_AQI := inject_Z (Py.round (Py.max3 si_pm25 si_pm10 si_co)) |}
    /\ Pipeline.run_body raw_results h w filename now =
         Ok {| Filename := filename; Timestamp := now;
               PM25 := pm25; PM10 := pm10; CO := co; CO2 := co2;
               Final_AQI := Py.max3 si_pm25 si_pm10 si_co |}.
Proof.
  destruct (collect_total w raw_results []) as [dn Hc].
  destruct (assign_total dn) as [[[[pm25 pm10] co] co2] Ha].
  destruct (get_sub_index_range pm25 "PM25") as [s1 [H1 _]].
  destruct (get_sub_index_range pm10 "PM10") as [s2 [H2 _]].
  destruct (get_sub_index_range co "CO") as [s3 [H3 _]].
  exists dn, pm25, pm10, co, co2, s1, s2, s3.
  unfold App3.process_image_data, Pipeline.run_body.
  rewrite Hc. simpl. rewrite <- assign_agree, Ha. simpl.
  rewrite H1, H2, H3. simpl. repeat split; auto.
Qed.

(** What the two components agree on, for every image: the four fields, and
    [Final_AQI] up to the rounding that only [app3.py] applies. *)
Lemma components_agree_up_to_rounding (raw_results : list detection) (h w : Z)
    (filename now : string) :
  exists r3 rp,
    App3.process_image_data raw_results h w filename now = Ok r3
    /\ Pipeline.run_body raw_results h w filename now = Ok rp
    /\ PM25 r3 = PM25 rp /\ PM10 r3 = PM10 rp /\ CO r3 = CO rp /\ CO2 r3 = CO2 rp
    /\ Final_AQI r3 = inject_Z (Py.round (Final_AQI rp)).
Proof.
  destruct (components_shape raw_results h w filename now)
    as (dn & pm25 & pm10 & co & co2 & s1 & s2 & s3 & _ & _ & _ & _ & _ & H3 & Hp).
  rewrite H3, Hp. eexists. eexists. repeat split; reflexivity.
Qed.

(** In [app3.py] the AQI of a row is the rounded largest sub-index of its
    PM25, PM10 and CO fields; the CO2 field does not enter. *)
Lemma app3_final_aqi (raw_results : list detection) (h w : Z)
    (filename now : string) :
  exists r si_pm25 si_pm10 si_co,
    App3.process_image_data raw_results h w filename now = Ok r
    /\ get_sub_index (PM25 r) "PM25" = Ok si_pm25
    /\ get_sub_index (PM10 r) "PM10" = Ok si_pm10
    /\ get_sub_index (CO r) "CO" = Ok si_co
    /\ Final_AQI r = inject_Z (Py.round (Py.max3 si_pm25 si_pm10 si_co)).
Proof.
  destruct (components_shape raw_results h w filename now)
    as (dn & pm25 & pm10 & co & co2 & s1 & s2 & s3 & _ & _ & H1 & H2 & H3 & Hr & _).
  rewrite Hr. exists {| Filename := filename; Timestamp := now;
               PM25 := pm25; PM10 := pm10; CO := co; CO2 := co2;
               Final_AQI := inject_Z (Py.round (Py.max3 s1 s2 s3)) |}, s1, s2, s3.
  simpl. auto.
Qed.

(** With PM25 = 90, PM10 = 0 and CO = 0 the sub-index of PM25 comes from the
    band (61, 90, 101, 200) and the AQI is 200, in both components. *)
Lemma final_aqi_of_90 :
  get_sub_index 90 "PM25" ~~> 200
  /\ (exists r,
        App3.process_image_data Samples.display_90 100 100 "a.jpg" "t" = Ok r
        /\ PM25 r == 90 /\ PM10 r == 0 /\ CO r == 0 /\ Final_AQI r == 200)
  /\ (exists r,
        Pipeline.run_body Samples.display_90 100 100 "a.jpg" "t" = Ok r
        /\ PM25 r == 90 /\ PM10 r == 0 /\ CO r == 0 /\ Final_AQI r == 200).
Proof.
  split; [reflexivity|].
  split; eexists; (split; [vm_compute; reflexivity|]); repeat split.
Qed.

(** ** The claims *)

(** C2.  The bands of PM25 neither cover the range [0, 500] nor are disjoint:
    the concentration 30.5, inside the range, lies in no band (so that
    [get_sub_index] answers 500 for it), and the concentration 250 lies in
    two bands. *)
Theorem bps_gap_and_overlap :
  (0 <= 61 # 2 <= table_max "PM25")
  /\ matching_bands (61 # 2) "PM25" = []
  /\ get_sub_index (61 # 2) "PM25" = Ok 500
  /\ (0 <= 250 <= table_max "PM25")
  /\ matching_bands 250 "PM25" = [ (121, 250, 301, 400); (250, 500, 401, 500) ].
Proof.
  repeat split; try reflexivity; vm_compute; discriminate.
Qed.

(** C3.  On the display reading PM2.5 = 45, PM10 = 20, CO = 0.5, CO2 = 400 the
    batch component stores as [Final_AQI] the largest sub-index itself,
    2165/29 (about 74.66), and not its rounding, 75. *)
Theorem pipeline_final_aqi_unrounded :
  exists r,
    Pipeline.run_body Samples.display_45 100 100 "a.jpg" "2026-01-01T00:00:00" = Ok r
    /\ PM25 r == 45 /\ PM10 r == 20 /\ CO r == 1 # 2 /\ CO2 r == 400
    /\ get_sub_index (PM25 r) "PM25" ~~> 2165 # 29
    /\ get_sub_index (PM10 r) "PM10" ~~> 20
    /\ get_sub_index (CO r) "CO" ~~> 25
    /\ Final_AQI r == 2165 # 29
    /\ Py.round (Py.max3 (2165 # 29) 20 25) = 75%Z
    /\ ~ Final_AQI r == inject_Z (Py.round (Py.max3 (2165 # 29) 20 25)).
Proof.
  eexists. split; [vm_compute; reflexivity|].
  repeat split; try reflexivity; try (vm_compute; congruence).
Qed.

(** C4.  On that same display the two components agree on PM25, PM10, CO and
    CO2 but not on [Final_AQI]: 75 in [app3.py], 2165/29 in
    [pipline_code.py]. *)
Theorem final_aqi_differs_between_components :
  exists r3 rp,
    App3.process_image_data Samples.display_45 100 100 "a.jpg" "2026-01-01T00:00:00" = Ok r3
    /\ Pipeline.run_body Samples.display_45 100 100 "a.jpg" "2026-01-01T00:00:00" = Ok rp
    /\ PM25 r3 = PM25 rp /\ PM10 r3 = PM10 rp /\ CO r3 = CO rp /\ CO2 r3 = CO2 rp
    /\ Final_AQI r3 == 75
    /\ Final_AQI rp == 2165 # 29
    /\ ~ Final_AQI r3 == Final_AQI rp.
Proof.
  eexists. eexists.
  split; [vm_compute; reflexivity|].
  split; [vm_compute; reflexivity|].
  repeat split; try reflexivity; try (vm_compute; congruence).
Qed.

(** C6.  At every band boundary of the table, the sub-index at the upper end
    of a band and the sub-index at the lower end of the band that follows
    differ by at most 1; in particular the sub-index of PM25 is 50 at 30 and
    51 at 31. *)
Theorem boundary_near_continuous :
  (forall pollutant bands clo1 chi1 ilo1 ihi1 clo2 chi2 ilo2 ihi2,
      dict_get bps pollutant = Some bands ->
      In ((clo1, chi1, ilo1, ihi1), (clo2, chi2, ilo2, ihi2)) (adjacent_bands bands) ->
      exists v1 v2,
        get_sub_index chi1 pollutant = Ok v1
        /\ get_sub_index clo2 pollutant = Ok v2
        /\ 0 <= v2 - v1 <= 1)
  /\ get_sub_index 30 "PM25" ~~> 50
  /\ get_sub_index 31 "PM25" ~~> 51.
Proof.
  split; [|split; reflexivity].
  intros pollutant bands clo1 chi1 ilo1 ihi1 clo2 chi2 ilo2 ihi2 D I.
  apply dict_get_In in D. simpl in D.
  destruct D as [D | [D | [D | []]]]; injection D as <- <-; simpl in I;
    repeat (destruct I as [I | I];
            [ injection I as <- <- <- <- <- <- <- <-;
              eexists; eexists;
              split; [vm_compute; reflexivity|];
              split; [vm_compute; reflexivity|];
              split; vm_compute; congruence
            | ]);
    contradiction.
Qed.

Lemma boundary_near_continuous_witness :
  exists v1 v2,
    get_sub_index 2 "CO" = Ok v1
    /\ get_sub_index (21 # 10) "CO" = Ok v2
    /\ 0 <= v2 - v1 <= 1.
Proof.
  apply (proj1 boundary_near_continuous "CO"%string
           [ (0, 1, 0, 50); (11 # 10, 2, 51, 100); (21 # 10, 10, 101, 200);
             (101 # 10, 17, 201, 300); (171 # 10, 34, 301, 400);
             (341 # 10, 100, 401, 500) ]
           (11 # 10) 2 51 100 (21 # 10) 10 101 200).
  - reflexivity.
  - simpl. right. left. reflexivity.
Defined.

(** C9.  For every pollutant name and every concentration [get_sub_index]
    returns a number between 0 and 500; hence both components finish on every
    image and the [Final_AQI] of the row lies between 0 and 500. *)
Theorem sub_index_and_aqi_in_range :
  (forall conc pollutant,
      exists v, get_sub_index conc pollutant = Ok v /\ 0 <= v <= 500)
  /\ (forall raw_results h w filename now,
        exists r, App3.process_image_data raw_results h w filename now = Ok r
                  /\ 0 <= Final_AQI r <= 500)
  /\ (forall raw_results h w filename now,
        exists r, Pipeline.run_body raw_results h w filename now = Ok r
                  /\ 0 <= Final_AQI r <= 500).
Proof.
  split; [exact get_sub_index_range|].
  split; intros raw_results h w filename now;
    destruct (components_shape raw_results h w filename now)
      as (dn & pm25 & pm10 & co & co2 & s1 & s2 & s3 & _ & _ & H1 & H2 & H3 & Hr & Hp);
    destruct (get_sub_index_range pm25 "PM25") as [v1 [E1 R1]];
    destruct (get_sub_index_range pm10 "PM10") as [v2 [E2 R2]];
    destruct (get_sub_index_range co "CO") as [v3 [E3 R3]];
    assert (v1 = s1) by congruence; assert (v2 = s2) by congruence;
    assert (v3 = s3) by congruence; subst v1 v2 v3;
    pose proof (max3_range s1 s2 s3 0 500 R1 R2 R3) as M.
  - rewrite Hr. eexists. split; [reflexivity|]. simpl.
    pose proof (round_range (Py.max3 s1 s2 s3) 0 500 M) as [Rl Ru].
    split.
    + change 0 with (inject_Z 0). now rewrite <- Zle_Qle.
    + change 500 with (inject_Z 500). now rewrite <- Zle_Qle.
  - rewrite Hp. eexists. split; [reflexivity|]. exact M.
Qed.

(** C10.  A text accepted by the numeric test
    [text.replace('.', '', 1).isdigit()] is not empty, holds a digit, and is
    read by [float] without an error; the text "." is rejected, the texts ".5"
    and "5." are accepted and read as 0.5 and 5. *)
Theorem accepted_text_parses :
  (forall t : string,
      Py.isdigit (Py.replace1 "." t) = true ->
      t <> EmptyString
      /\ (exists a c b, t = (a ++ String c b)%string /\ Py.is_digit c = true)
      /\ (exists v, Py.float t = Ok v))
  /\ Py.isdigit (Py.replace1 "." ".") = false
  /\ (Py.isdigit (Py.replace1 "." ".5") = true /\ Py.float ".5" ~~> 1 # 2)
  /\ (Py.isdigit (Py.replace1 "." "5.") = true /\ Py.float "5." ~~> 5).
Proof.
  split; [|repeat split; reflexivity].
  intros t H. split; [|split].
  - intros ->. discriminate.
  - now apply accepted_has_digit.
  - now apply float_accepts.
Qed.

Lemma accepted_text_parses_witness :
  "12.5"%string <> EmptyString
  /\ (exists a c b, "12.5"%string = (a ++ String c b)%string /\ Py.is_digit c = true)
  /\ (exists v, Py.float "12.5" = Ok v).
Proof.
  apply (proj1 accepted_text_parses "12.5"%string). reflexivity.
Defined.

(** C5.  The surviving detections are put in ascending order of [center_y];
    with fewer than four of them the four fields are 0, otherwise the last
    four in that order give PM25, PM10, CO and CO2, in both components.  In
    particular five detections at strictly increasing heights with the values
    10, 20, 30, 40, 50 give PM25 = 20, PM10 = 30, CO = 40, CO2 = 50. *)
Theorem positional_assignment :
  (forall survivors : list (Q * Q),
      Permutation survivors (Py.sort survivors)
      /\ sorted_by_center_y (Py.sort survivors)
      /\ ((List.length survivors < 4)%nat ->
          App3.assign_by_unpacking survivors = Ok (0, 0, 0, 0)
          /\ Pipeline.assign_by_index survivors = Ok (0, 0, 0, 0))
      /\ ((4 <= List.length survivors)%nat ->
          exists above a b c d,
            Py.sort survivors = above ++ [a; b; c; d]
            /\ App3.assign_by_unpacking survivors = Ok (snd a, snd b, snd c, snd d)
            /\ Pipeline.assign_by_index survivors = Ok (snd a, snd b, snd c, snd d)))
  /\ (forall (y1 y2 y3 y4 y5 : Q) (survivors : list (Q * Q)),
        y1 < y2 -> y2 < y3 -> y3 < y4 -> y4 < y5 ->
        Permutation survivors [ (y1, 10); (y2, 20); (y3, 30); (y4, 40); (y5, 50) ] ->
        App3.assign_by_unpacking survivors = Ok (20, 30, 40, 50)
        /\ Pipeline.assign_by_index survivors = Ok (20, 30, 40, 50)).
Proof.
  split.
  - intro survivors.
    split; [apply sort_perm|].
    split; [apply sort_sorted_by_center_y|].
    split.
    + intro H. rewrite <- assign_agree.
      unfold App3.assign_by_unpacking. rewrite sort_length.
      apply Nat.leb_gt in H. rewrite H. auto.
    + intro H. rewrite <- assign_agree.
      unfold App3.assign_by_unpacking.
      assert (L : (4 <= List.length (Py.sort survivors))%nat)
        by now rewrite sort_length.
      destruct (last4_shape _ L) as (above & a & b & c & d & E & E4).
      exists above, a, b, c, d.
      apply Nat.leb_le in L. rewrite L, E4. simpl. auto.
  - intros y1 y2 y3 y4 y5 survivors H12 H23 H34 H45 P.
    rewrite <- assign_agree.
    unfold App3.assign_by_unpacking.
    rewrite (sort_strictly_increasing
               [ (y1, 10); (y2, 20); (y3, 30); (y4, 40); (y5, 50) ] survivors).
    + simpl. auto.
    + repeat constructor; apply tuple_lt_iff; left; simpl; lra.
    + exact P.
Qed.

Lemma positional_assignment_witness :
  App3.assign_by_unpacking [ (40, 40); (5, 10); (20, 20); (50, 50); (30, 30) ]
    = Ok (20, 30, 40, 50)
  /\ Pipeline.assign_by_index [ (40, 40); (5, 10); (20, 20); (50, 50); (30, 30) ]
    = Ok (20, 30, 40, 50).
Proof.
  apply (proj2 positional_assignment 5 20 30 40 50); try reflexivity.
  eapply perm_trans; [apply perm_swap|]. apply perm_skip.
  eapply perm_trans; [apply perm_swap|]. apply perm_skip.
  eapply perm_trans; [apply perm_skip, perm_swap|].
  eapply perm_trans; [apply perm_swap|].
  apply Permutation_refl.
Defined.

(** ** The rounding to doubles *)

Lemma Qle_bool_false_iff (a b : Q) : Qle_bool a b = false <-> b < a.
Proof.
  rewrite <- Qlt_bool_iff. unfold Py.Qlt_bool. now rewrite negb_true_iff.
Qed.

Lemma round_near (x : Q) :
  x - (1 # 2) <= inject_Z (Py.round x) <= x + (1 # 2).
Proof.
  unfold Py.round.
  pose proof (Qfloor_le x) as Fl.
  pose proof (Qlt_floor x) as Fu.
  rewrite inject_Z_plus in Fu. change (inject_Z 1) with 1 in Fu.
  destruct (Qcompare (x - inject_Z (Qfloor x)) (1 # 2)) eqn:C.
  - apply Qeq_alt in C. destruct (Z.even (Qfloor x)).
    + lra.
    + rewrite inject_Z_plus. change (inject_Z 1) with 1. lra.
  - apply Qlt_alt in C. lra.
  - apply Qgt_alt in C. rewrite inject_Z_plus. change (inject_Z 1) with 1. lra.
Qed.










(** The two literals, as doubles. *)
Lemma band_literals :
  Py.fround (35 # 100) == 3152519739159347 # 9007199254740992
  /\ Py.fround (65 # 100) == 5854679515581645 # 9007199254740992.
Proof. split; vm_compute; reflexivity. Qed.





(** C8.  The loop over the detections never raises; when fewer than four
    detections survive it, both components return a row whose four pollutant
    fields are 0 and whose [Final_AQI] is 0, each of the three sub-indices
    being 0. *)
Theorem insufficient_detections_default :
  forall (raw_results : list detection) (h w : Z) (filename now : string),
  exists detected_numbers,
    collect w raw_results [] = Ok detected_numbers
    /\ ((List.length detected_numbers < 4)%nat ->
        App3.process_image_data raw_results h w filename now =
          Ok {| Filename := filename; Timestamp := now;
                PM25 := 0; PM10 := 0; CO := 0; CO2 := 0; Final_AQI := 0 |}
        /\ Pipeline.run_body raw_results h w filename now =
          Ok {| Filename := filename; Timestamp := now;
                PM25 := 0; PM10 := 0; CO := 0; CO2 := 0; Final_AQI := 0 |}
        /\ get_sub_index 0 "PM25" = Ok 0
        /\ get_sub_index 0 "PM10" = Ok 0
        /\ get_sub_index 0 "CO" = Ok 0).
Proof.
  intros raw_results h w filename now.
  destruct (collect_total w raw_results []) as [dn Hc].
  exists dn. split; [assumption|].
  intro H.
  assert (A : App3.assign_by_unpacking dn = Ok (0, 0, 0, 0)).
  { unfold App3.assign_by_unpacking. rewrite sort_length.
    apply Nat.leb_gt in H. now rewrite H. }
  unfold App3.process_image_data, Pipeline.run_body.
  rewrite Hc. simpl. rewrite <- assign_agree, A.
  repeat split; reflexivity.
Qed.

Lemma insufficient_detections_default_witness :
  App3.process_image_data Samples.display_short 100 100 "a.jpg" "t" =
    Ok {| Filename := "a.jpg"; Timestamp := "t";
          PM25 := 0; PM10 := 0; CO := 0; CO2 := 0; Final_AQI := 0 |}
  /\ Pipeline.run_body Samples.display_short 100 100 "a.jpg" "t" =
    Ok {| Filename := "a.jpg"; Timestamp := "t";
          PM25 := 0; PM10 := 0; CO := 0; CO2 := 0; Final_AQI := 0 |}
  /\ get_sub_index 0 "PM25" = Ok 0
  /\ get_sub_index 0 "PM10" = Ok 0
  /\ get_sub_index 0 "CO" = Ok 0.
Proof.
  destruct (insufficient_detections_default Samples.display_short 100 100 "a.jpg" "t")
    as [detected_numbers [Hc H]].
  apply H. vm_compute in Hc. injection Hc as <-. simpl. lia.
Defined.

(** ** More on the table: order of the bands, positivity, index ranges *)

Lemma band_wf_iff clo chi ilo ihi :
  band_wf (clo, chi, ilo, ihi) = true <->
  clo < chi /\ 0 <= ilo /\ ilo <= ihi /\ ihi <= 500.
Proof.
  unfold band_wf. rewrite !andb_true_iff, Qlt_bool_iff, !Qle_bool_iff. tauto.
Qed.

Lemma in_band_iff conc clo chi ilo ihi :
  in_band conc (clo, chi, ilo, ihi) = true <-> clo <= conc <= chi.
Proof. unfold in_band. now rewrite andb_true_iff, !Qle_bool_iff. Qed.

(** One step of the loop, once the band is known to have distinct bounds. *)
Lemma scan_bands_cons conc clo chi ilo ihi rest :
  clo < chi ->
  scan_bands conc ((clo, chi, ilo, ihi) :: rest) =
  if in_band conc (clo, chi, ilo, ihi)
  then Ok ((ihi - ilo) / (chi - clo) * (conc - clo) + ilo)
  else scan_bands conc rest.
Proof.
  intro H. simpl. destruct (Qle_bool clo conc && Qle_bool conc chi); [|reflexivity].
  unfold Py.div. destruct (Qeq_bool (chi - clo) 0) eqn:Z; [|reflexivity].
  apply Qeq_bool_iff in Z. lra.
Qed.

Lemma bps_ordered :
  forallb (fun kv => bands_ordered (snd kv)) bps = true.
Proof. reflexivity. Qed.

Lemma bps_positive :
  forallb (fun kv => forallb band_positive (snd kv)) bps = true.
Proof. reflexivity. Qed.

Lemma bps_bands_ordered pollutant bands :
  dict_get bps pollutant = Some bands -> bands_ordered bands = true.
Proof.
  intro H. apply dict_get_In in H.
  pose proof bps_ordered as W. rewrite forallb_forall in W. apply (W _ H).
Qed.

Lemma bps_bands_positive pollutant bands :
  dict_get bps pollutant = Some bands -> forallb band_positive bands = true.
Proof.
  intro H. apply dict_get_In in H.
  pose proof bps_positive as W. rewrite forallb_forall in W. apply (W _ H).
Qed.

(** The index bounds of the bands of every pollutant are the six ranges. *)
Lemma bps_index_ranges pollutant bands :
  dict_get bps pollutant = Some bands ->
  map (fun b : band => let '(_, _, ilo, ihi) := b in (ilo, ihi)) bands = index_ranges.
Proof.
  intro H. apply dict_get_In in H. simpl in H.
  destruct H as [H | [H | [H | []]]]; injection H as <- <-; reflexivity.
Qed.

(** ** Positive concentrations have positive sub-indices *)

Lemma interpolation_positive clo chi ilo ihi conc :
  clo < chi -> 0 <= ilo -> ilo <= ihi -> clo <= conc <= chi -> 0 < conc ->
  band_positive (clo, chi, ilo, ihi) = true ->
  0 < (ihi - ilo) / (chi - clo) * (conc - clo) + ilo.
Proof.
  intros Hc H0 Hi Hb Hp P.
  pose proof (interpolation_range clo chi ilo ihi conc Hc Hi Hb) as [R _].
  unfold band_positive in P. apply orb_true_iff in P as [P | P].
  - apply Qlt_bool_iff in P. lra.
  - apply andb_true_iff in P as [P1 P2].
    apply Qle_bool_iff in P1. apply Qlt_bool_iff in P2.
    assert (S : 0 < (ihi - ilo) / (chi - clo)).
    { apply Qlt_shift_div_l; lra. }
    assert (M : 0 < (ihi - ilo) / (chi - clo) * (conc - clo)).
    { apply Qmult_lt_0_compat; lra. }
    lra.
Qed.

Lemma scan_bands_positive conc bands :
  forallb band_wf bands = true -> forallb band_positive bands = true ->
  0 < conc ->
  exists v, scan_bands conc bands = Ok v /\ 0 < v.
Proof.
  induction bands as [|[[[clo chi] ilo] ihi] rest IH]; intros W P Hp.
  - exists 500. split; [reflexivity | lra].
  - simpl in W, P. apply andb_true_iff in W as [Wb Wr].
    apply andb_true_iff in P as [Pb Pr].
    apply band_wf_iff in Wb. destruct Wb as (Hc & H0 & Hi & Hu).
    rewrite (scan_bands_cons _ _ _ _ _ _ Hc).
    destruct (in_band conc (clo, chi, ilo, ihi)) eqn:E; [|auto].
    apply in_band_iff in E.
    eexists. split; [reflexivity|].
    now apply interpolation_positive.
Qed.

(** ** The sub-index grows with the concentration *)

Lemma scan_bands_above (lo conc : Q) (bands : list band) :
  forallb band_wf bands = true -> lo <= 500 ->
  Forall (fun b : band => let '(_, _, ilo, _) := b in lo <= ilo) bands ->
  exists v, scan_bands conc bands = Ok v /\ lo <= v.
Proof.
  induction bands as [|[[[clo chi] ilo] ihi] rest IH]; intros W L F.
  - exists 500. split; [reflexivity | assumption].
  - simpl in W. apply andb_true_iff in W as [Wb Wr].
    apply band_wf_iff in Wb. destruct Wb as (Hc & H0 & Hi & Hu).
    apply Forall_cons_iff in F as [Fb Fr].
    rewrite (scan_bands_cons _ _ _ _ _ _ Hc).
    destruct (in_band conc (clo, chi, ilo, ihi)) eqn:E; [|auto].
    apply in_band_iff in E.
    eexists. split; [reflexivity|].
    pose proof (interpolation_range clo chi ilo ihi conc Hc Hi E). lra.
Qed.

Lemma interpolation_mono clo chi ilo ihi c1 c2 :
  clo < chi -> ilo <= ihi -> c1 <= c2 ->
  (ihi - ilo) / (chi - clo) * (c1 - clo) + ilo
  <= (ihi - ilo) / (chi - clo) * (c2 - clo) + ilo.
Proof.
  intros Hc Hi H.
  set (s := (ihi - ilo) / (chi - clo)).
  assert (S : 0 <= s) by (apply Qle_shift_div_l; lra).
  assert (P : 0 <= s * (c2 - c1)) by (apply Qmult_le_0_compat; lra).
  assert (E : s * (c2 - clo) + ilo - (s * (c1 - clo) + ilo) == s * (c2 - c1)) by ring.
  lra.
Qed.

Lemma scan_bands_mono (c1 c2 : Q) (bands : list band) :
  forallb band_wf bands = true -> bands_ordered bands = true ->
  c1 <= c2 -> find (in_band c1) bands <> None ->
  exists v1 v2,
    scan_bands c1 bands = Ok v1 /\ scan_bands c2 bands = Ok v2 /\ v1 <= v2.
Proof.
  induction bands as [|[[[clo chi] ilo] ihi] rest IH]; intros W O H F.
  - simpl in F. congruence.
  - simpl in W, O. apply andb_true_iff in W as [Wb Wr].
    apply andb_true_iff in O as [Ob Or].
    apply band_wf_iff in Wb. destruct Wb as (Hc & H0 & Hi & Hu).
    rewrite !(scan_bands_cons _ _ _ _ _ _ Hc).
    simpl in F. fold (in_band c1 (clo, chi, ilo, ihi)) in F.
    rewrite forallb_forall in Ob.
    destruct (in_band c1 (clo, chi, ilo, ihi)) eqn:E1.
    + apply in_band_iff in E1.
      destruct (in_band c2 (clo, chi, ilo, ihi)) eqn:E2.
      * eexists. eexists. split; [reflexivity|]. split; [reflexivity|].
        now apply interpolation_mono.
      * destruct (scan_bands_above ihi c2 rest Wr Hu) as [v2 [S2 L2]].
        { apply Forall_forall. intros [[[clo' chi'] ilo'] ihi'] I.
          specialize (Ob _ I). simpl in Ob.
          apply andb_true_iff in Ob as [_ Ob]. now apply Qle_bool_iff in Ob. }
        eexists. exists v2. split; [reflexivity|]. split; [assumption|].
        pose proof (interpolation_range clo chi ilo ihi c1 Hc Hi E1). lra.
    + destruct (find (in_band c1) rest) as [[[[clo' chi'] ilo'] ihi']|] eqn:Fr;
        [|congruence].
      apply find_some in Fr as [I B]. apply in_band_iff in B.
      specialize (Ob _ I). simpl in Ob.
      apply andb_true_iff in Ob as [Ob _]. apply Qle_bool_iff in Ob.
      assert (E2 : in_band c2 (clo, chi, ilo, ihi) = false).
      { destruct (in_band c2 (clo, chi, ilo, ihi)) eqn:E2; [|reflexivity].
        apply in_band_iff in E2.
        assert (E : in_band c1 (clo, chi, ilo, ihi) = true)
          by (apply in_band_iff; lra).
        congruence. }
      rewrite E2. apply IH; auto.
Qed.

(** ** The band that decides and the status *)

Lemma scan_bands_first_match (conc : Q) (bands : list band) :
  forallb band_wf bands = true ->
  match first_match conc bands with
  | Some i =>
      exists clo chi ilo ihi v,
        nth_error bands i = Some (clo, chi, ilo, ihi)
        /\ scan_bands conc bands = Ok v /\ ilo <= v <= ihi
  | None => scan_bands conc bands = Ok 500
  end.
Proof.
  induction bands as [|[[[clo chi] ilo] ihi] rest IH]; intro W; [reflexivity|].
  simpl in W. apply andb_true_iff in W as [Wb Wr].
  apply band_wf_iff in Wb. destruct Wb as (Hc & H0 & Hi & Hu).
  rewrite (scan_bands_cons _ _ _ _ _ _ Hc). cbn [first_match].
  destruct (in_band conc (clo, chi, ilo, ihi)) eqn:E.
  - apply in_band_iff in E. cbn iota.
    exists clo, chi, ilo, ihi. eexists.
    split; [reflexivity|]. split; [reflexivity|].
    now apply interpolation_range.
  - specialize (IH Wr).
    destruct (first_match conc rest) as [i|]; cbn iota; [|assumption].
    destruct IH as (clo' & chi' & ilo' & ihi' & v & N & S & R).
    exists clo', chi', ilo', ihi', v. auto.
Qed.

Lemma status_cases (aqi : Q) :
  (aqi <= 50 /\ App3.get_aqi_status aqi = nth 0 palette (EmptyString, EmptyString))
  \/ (50 < aqi <= 100 /\ App3.get_aqi_status aqi = nth 1 palette (EmptyString, EmptyString))
  \/ (100 < aqi <= 200 /\ App3.get_aqi_status aqi = nth 2 palette (EmptyString, EmptyString))
  \/ (200 < aqi <= 300 /\ App3.get_aqi_status aqi = nth 3 palette (EmptyString, EmptyString))
  \/ (300 < aqi <= 400 /\ App3.get_aqi_status aqi = nth 4 palette (EmptyString, EmptyString))
  \/ (400 < aqi /\ App3.get_aqi_status aqi = nth 5 palette (EmptyString, EmptyString)).
Proof.
  unfold App3.get_aqi_status.
  destruct (Qle_bool aqi 50) eqn:E1;
    [apply Qle_bool_iff in E1; auto | apply Qle_bool_false_iff in E1].
  destruct (Qle_bool aqi 100) eqn:E2;
    [apply Qle_bool_iff in E2; auto | apply Qle_bool_false_iff in E2].
  destruct (Qle_bool aqi 200) eqn:E3;
    [apply Qle_bool_iff in E3; auto 6 | apply Qle_bool_false_iff in E3].
  destruct (Qle_bool aqi 300) eqn:E4;
    [apply Qle_bool_iff in E4; auto 7 | apply Qle_bool_false_iff in E4].
  destruct (Qle_bool aqi 400) eqn:E5;
    [apply Qle_bool_iff in E5; auto 8 | apply Qle_bool_false_iff in E5].
  auto 9.
Qed.

(** A value inside the [i]-th index range has the [i]-th status. *)
Lemma status_of_range (i : nat) (lo hi v : Q) :
  nth_error index_ranges i = Some (lo, hi) -> lo <= v <= hi ->
  App3.get_aqi_status v = nth i palette (EmptyString, EmptyString).
Proof.
  intros N R.
  do 6 (destruct i as [|i];
        [ simpl in N; injection N as <- <-;
          destruct (status_cases v) as [[B ->] | [[B ->] | [[B ->] | [[B ->] | [[B ->] | [B ->]]]]]];
          first [reflexivity | exfalso; lra]
        | ]).
  destruct i; discriminate.
Qed.

Lemma index_ranges_integral (i : nat) (lo hi : Q) :
  nth_error index_ranges i = Some (lo, hi) ->
  exists a b : Z, lo = inject_Z a /\ hi = inject_Z b.
Proof.
  intro N.
  do 6 (destruct i as [|i];
        [ simpl in N; injection N as <- <-; eexists; eexists; split; reflexivity | ]).
  destruct i; discriminate.
Qed.

(** Rounding a value of an index range keeps its status. *)
Lemma status_round (i : nat) (lo hi v : Q) :
  nth_error index_ranges i = Some (lo, hi) -> lo <= v <= hi ->
  App3.get_aqi_status (inject_Z (Py.round v)) = App3.get_aqi_status v.
Proof.
  intros N R.
  rewrite (status_of_range i lo hi v N R).
  apply (status_of_range i lo hi); [assumption|].
  destruct (index_ranges_integral i lo hi N) as (a & b & -> & ->).
  pose proof (round_range v a b R) as [Ra Rb].
  rewrite <- !Zle_Qle. auto.
Qed.

(** Every sub-index lies in one of the six index ranges. *)
Lemma get_sub_index_in_ranges (conc : Q) (pollutant : string) :
  exists v i lo hi,
    get_sub_index conc pollutant = Ok v
    /\ nth_error index_ranges i = Some (lo, hi) /\ lo <= v <= hi.
Proof.
  unfold get_sub_index.
  destruct (dict_get bps pollutant) as [bands|] eqn:D.
  - destruct (Qle_bool conc 0).
    + exists 0, O, 0, 50. repeat split; try reflexivity; lra.
    + pose proof (scan_bands_first_match conc bands (bps_bands_wf _ _ D)) as M.
      destruct (first_match conc bands) as [i|].
      * destruct M as (clo & chi & ilo & ihi & v & N & S & R).
        exists v, i, ilo, ihi. split; [assumption|]. split; [|assumption].
        rewrite <- (bps_index_ranges _ _ D).
        now rewrite nth_error_map, N.
      * exists 500, 5%nat, 401, 500. repeat split; try assumption; try reflexivity; lra.
  - exists 0, O, 0, 50. repeat split; try reflexivity; lra.
Qed.

Lemma filter_find {A : Type} (f : A -> bool) (l : list A) :
  filter f l <> [] -> find f l <> None.
Proof.
  induction l as [|a l IH]; simpl; [congruence|].
  destruct (f a); [discriminate | assumption].
Qed.

Lemma Ok_inj {A : Type} (a b : A) : Ok a = Ok b -> a = b.
Proof. now intros [= ->]. Qed.

(** ** Further properties of the calculator and of the status *)

(** X1.  The sub-index is 0 exactly when the concentration is not positive or
    the pollutant is not in the table: a positive reading of a known pollutant
    never counts for nothing. *)
Theorem sub_index_zero_iff :
  forall (conc : Q) (pollutant : string),
    get_sub_index conc pollutant ~~> 0 <->
    conc <= 0 \/ dict_get bps pollutant = None.
Proof.
  intros conc pollutant. unfold get_sub_index.
  destruct (dict_get bps pollutant) as [bands|] eqn:D.
  - destruct (Qle_bool conc 0) eqn:E.
    + apply Qle_bool_iff in E. simpl. split; [auto | reflexivity].
    + apply Qle_bool_false_iff in E.
      destruct (scan_bands_positive conc bands (bps_bands_wf _ _ D)
                  (bps_bands_positive _ _ D) E) as [v [-> P]].
      simpl. split.
      * intro Z. lra.
      * intros [H | H]; [lra | discriminate].
  - simpl. split; [auto | reflexivity].
Qed.

(** X2.  The sub-index does not decrease when the concentration grows, as long
    as the smaller concentration is not positive or lies in some band of the
    pollutant. *)
Theorem sub_index_monotone :
  forall (pollutant : string) (c1 c2 : Q),
    c1 <= c2 ->
    c1 <= 0 \/ matching_bands c1 pollutant <> [] ->
    exists v1 v2,
      get_sub_index c1 pollutant = Ok v1
      /\ get_sub_index c2 pollutant = Ok v2
      /\ v1 <= v2.
Proof.
  intros pollutant c1 c2 H C.
  destruct (get_sub_index_range c2 pollutant) as [v2 [E2 R2]].
  unfold get_sub_index in *. unfold matching_bands, bands_of in C.
  destruct (dict_get bps pollutant) as [bands|] eqn:D.
  - destruct (Qle_bool c1 0) eqn:L1.
    + exists 0, v2. split; [reflexivity|]. split; [assumption | lra].
    + apply Qle_bool_false_iff in L1.
      destruct C as [C | C]; [lra|].
      assert (L2 : Qle_bool c2 0 = false) by (apply Qle_bool_false_iff; lra).
      rewrite L2.
      apply scan_bands_mono; auto.
      * eapply bps_bands_wf; eauto.
      * eapply bps_bands_ordered; eauto.
      * now apply filter_find.
  - exists 0, 0. repeat split; lra.
Qed.

Lemma sub_index_monotone_witness :
  exists v1 v2,
    get_sub_index 20 "PM25" = Ok v1
    /\ get_sub_index 45 "PM25" = Ok v2
    /\ v1 <= v2.
Proof.
  apply (sub_index_monotone "PM25" 20 45).
  - vm_compute. discriminate.
  - right. vm_compute. discriminate.
Defined.

(** X3.  For a positive concentration of a pollutant of the table, the status
    of the sub-index is the one whose rank is the position of the first band
    that holds the concentration: first band Good, second Satisfactory, and so
    on; it is Severe when no band holds it. *)
Theorem status_follows_band :
  forall (pollutant : string) (bands : list band) (conc : Q),
    dict_get bps pollutant = Some bands ->
    0 < conc ->
    exists v,
      get_sub_index conc pollutant = Ok v
      /\ App3.get_aqi_status v =
         match first_match conc bands with
         | Some i => nth i palette (EmptyString, EmptyString)
         | None => ("Severe"%string, "#7e0023"%string)
         end.
Proof.
  intros pollutant bands conc D P.
  unfold get_sub_index. rewrite D.
  assert (L : Qle_bool conc 0 = false) by now apply Qle_bool_false_iff.
  rewrite L.
  pose proof (scan_bands_first_match conc bands (bps_bands_wf _ _ D)) as M.
  destruct (first_match conc bands) as [i|].
  - destruct M as (clo & chi & ilo & ihi & v & N & S & R).
    exists v. split; [assumption|].
    apply (status_of_range i ilo ihi); [|assumption].
    rewrite <- (bps_index_ranges _ _ D).
    now rewrite nth_error_map, N.
  - exists 500. split; [assumption | reflexivity].
Qed.

Lemma status_follows_band_witness :
  exists v,
    get_sub_index 45 "PM25" = Ok v
    /\ App3.get_aqi_status v = ("Satisfactory"%string, "#92d050"%string).
Proof.
  apply (status_follows_band "PM25"
           [ (0, 30, 0, 50); (31, 60, 51, 100); (61, 90, 101, 200);
             (91, 120, 201, 300); (121, 250, 301, 400); (250, 500, 401, 500) ] 45).
  - reflexivity.
  - vm_compute. reflexivity.
Defined.

(** X4.  For every image the status computed from the [Final_AQI] that
    [app3.py] logs and the status computed from the [Final_AQI] that
    [pipline_code.py] logs are the same: the rounding never moves the AQI across
    a threshold of [get_aqi_status]. *)
Theorem status_same_in_both_components :
  forall (raw_results : list detection) (h w : Z) (filename now : string),
  exists r3 rp,
    App3.process_image_data raw_results h w filename now = Ok r3
    /\ Pipeline.run_body raw_results h w filename now = Ok rp
    /\ App3.get_aqi_status (Final_AQI r3) = App3.get_aqi_status (Final_AQI rp).
Proof.
  intros raw_results h w filename now.
  destruct (components_shape raw_results h w filename now)
    as (dn & pm25 & pm10 & co & co2 & s1 & s2 & s3 & _ & _ & H1 & H2 & H3 & Hr & Hp).
  rewrite Hr, Hp. eexists. eexists.
  split; [reflexivity|]. split; [reflexivity|]. cbn [Final_AQI].
  destruct (get_sub_index_in_ranges pm25 "PM25") as (v1 & i1 & lo1 & hi1 & E1 & N1 & R1).
  destruct (get_sub_index_in_ranges pm10 "PM10") as (v2 & i2 & lo2 & hi2 & E2 & N2 & R2).
  destruct (get_sub_index_in_ranges co "CO") as (v3 & i3 & lo3 & hi3 & E3 & N3 & R3).
  rewrite H1 in E1. rewrite H2 in E2. rewrite H3 in E3.
  apply Ok_inj in E1, E2, E3. subst v1 v2 v3.
  destruct (max3_cases s1 s2 s3) as [-> | [-> | ->]];
    [ apply (status_round i1 lo1 hi1)
    | apply (status_round i2 lo2 hi2)
    | apply (status_round i3 lo3 hi3) ]; assumption.
Qed.

(** X5.  The status never gets milder when the AQI grows: the ranks, in the
    list Good, Satisfactory, Moderate, Poor, Very Poor, Severe, of the statuses
    of two values are ordered as the values; and each status comes with its own
    colour. *)
Theorem aqi_status_monotone :
  forall a1 a2 : Q,
    a1 <= a2 ->
    exists i j : nat,
      (i <= j)%nat
      /\ nth_error palette i = Some (App3.get_aqi_status a1)
      /\ nth_error palette j = Some (App3.get_aqi_status a2).
Proof.
  intros a1 a2 H.
  destruct (status_cases a1) as [[B1 ->] | [[B1 ->] | [[B1 ->] | [[B1 ->] | [[B1 ->] | [B1 ->]]]]]];
    destruct (status_cases a2) as [[B2 ->] | [[B2 ->] | [[B2 ->] | [[B2 ->] | [[B2 ->] | [B2 ->]]]]]];
    try (exfalso; lra);
    match goal with
    | |- exists i j, _ /\ _ = Some (nth ?a _ _) /\ _ = Some (nth ?b _ _) =>
        exists a, b; split; [lia | split; reflexivity]
    end.
Qed.

Lemma aqi_status_monotone_witness :
  exists i j : nat,
    (i <= j)%nat
    /\ nth_error palette i = Some (App3.get_aqi_status 40)
    /\ nth_error palette j = Some (App3.get_aqi_status 150).
Proof.
  apply (aqi_status_monotone 40 150). vm_compute. discriminate.
Defined.

(** ** The whole-number AQI *)

Lemma int_inject_Z (z : Z) : Py.int_ (inject_Z z) = z.
Proof. unfold Py.int_. simpl. apply Z.quot_1_r. Qed.

Lemma int_floor (x : Q) : 0 <= x -> Py.int_ x = Qfloor x.
Proof.
  destruct x as [n d]. unfold Qle, Py.int_, Qfloor. simpl. intro H.
  apply Z.quot_div_nonneg; lia.
Qed.

Lemma round_floor (x : Q) :
  Py.round x = Qfloor x \/ Py.round x = (Qfloor x + 1)%Z.
Proof.
  unfold Py.round.
  destruct (Qcompare (x - inject_Z (Qfloor x)) (1 # 2)); auto.
  destruct (Z.even (Qfloor x)); auto.
Qed.

Lemma max3_upper (a b c : Q) :
  a <= Py.max3 a b c /\ b <= Py.max3 a b c /\ c <= Py.max3 a b c.
Proof.
  unfold Py.max3.
  destruct (Py.Qlt_bool a b) eqn:E1.
  - apply Qlt_bool_iff in E1.
    destruct (Py.Qlt_bool b c) eqn:E2.
    + apply Qlt_bool_iff in E2. lra.
    + unfold Py.Qlt_bool in E2. apply negb_false_iff, Qle_bool_iff in E2. lra.
  - unfold Py.Qlt_bool in E1. apply negb_false_iff, Qle_bool_iff in E1.
    destruct (Py.Qlt_bool a c) eqn:E2.
    + apply Qlt_bool_iff in E2. lra.
    + unfold Py.Qlt_bool in E2. apply negb_false_iff, Qle_bool_iff in E2. lra.
Qed.

Lemma run_body_range (raw_results : list detection) (h w : Z)
    (filename now : string) :
  exists r, Pipeline.run_body raw_results h w filename now = Ok r
            /\ 0 <= Final_AQI r <= 500.
Proof.
  destruct (components_shape raw_results h w filename now)
    as (dn & pm25 & pm10 & co & co2 & s1 & s2 & s3 & _ & _ & H1 & H2 & H3 & _ & Hp).
  destruct (get_sub_index_range pm25 "PM25") as [v1 [E1 R1]].
  destruct (get_sub_index_range pm10 "PM10") as [v2 [E2 R2]].
  destruct (get_sub_index_range co "CO") as [v3 [E3 R3]].
  rewrite H1 in E1. rewrite H2 in E2. rewrite H3 in E3.
  apply Ok_inj in E1, E2, E3. subst v1 v2 v3.
  rewrite Hp. eexists. split; [reflexivity|].
  now apply max3_range.
Qed.

(** X6.  For every image, the whole-number AQI that the batch run prints and
    that the dashboard shows for a row of the batch run, [int(Final_AQI)], is
    the AQI that [app3.py] logs for that image or one less. *)
Theorem displayed_aqi_within_one :
  forall (raw_results : list detection) (h w : Z) (filename now : string),
  exists r3 rp,
    App3.process_image_data raw_results h w filename now = Ok r3
    /\ Pipeline.run_body raw_results h w filename now = Ok rp
    /\ Final_AQI r3 = inject_Z (Py.int_ (Final_AQI r3))
    /\ (Py.int_ (Final_AQI rp) <= Py.int_ (Final_AQI r3) <= Py.int_ (Final_AQI rp) + 1)%Z.
Proof.
  intros raw_results h w filename now.
  destruct (components_agree_up_to_rounding raw_results h w filename now)
    as (r3 & rp & H3 & Hp & _ & _ & _ & _ & E).
  destruct (run_body_range raw_results h w filename now) as (rp' & Hp' & R).
  rewrite Hp in Hp'. apply Ok_inj in Hp'. subst rp'.
  exists r3, rp. split; [assumption|]. split; [assumption|].
  rewrite E, int_inject_Z. split; [reflexivity|].
  rewrite (int_floor (Final_AQI rp)) by lra.
  destruct (round_floor (Final_AQI rp)) as [-> | ->]; lia.
Qed.

(** ** What the classifier reads *)

Lemma digit_val_nonneg (c : ascii) : Py.is_digit c = true -> (0 <= Py.digit_val c)%Z.
Proof.
  unfold Py.is_digit, Py.digit_val. intro H.
  apply andb_true_iff in H as [H _]. apply Nat.leb_le in H. lia.
Qed.

Lemma digits_value_nonneg (s : string) :
  forall acc, Py.all_digits s = true -> (0 <= acc)%Z ->
  (0 <= Py.digits_value acc s)%Z.
Proof.
  induction s as [|c s IH]; intros acc D A; cbn [Py.digits_value]; [assumption|].
  simpl in D. apply andb_true_iff in D as [Dc Ds].
  apply IH; [assumption|]. pose proof (digit_val_nonneg c Dc). lia.
Qed.

Lemma float_nonneg (s : string) (v : Q) : Py.float s = Ok v -> 0 <= v.
Proof.
  unfold Py.float. destruct (Py.split_dot s) as [ip [fp|]].
  - destruct (Py.all_digits ip && Py.all_digits fp
              && negb (Py.is_empty ip && Py.is_empty fp)) eqn:E; [|discriminate].
    intros [= <-].
    apply andb_true_iff in E as [E _]. apply andb_true_iff in E as [Di Df].
    pose proof (digits_value_nonneg ip 0 Di (Z.le_refl 0)) as Hi.
    pose proof (digits_value_nonneg fp 0 Df (Z.le_refl 0)) as Hf.
    assert (Qi : 0 <= inject_Z (Py.digits_value 0 ip))
      by (change 0 with (inject_Z 0); now rewrite <- Zle_Qle).
    assert (Qf : 0 <= inject_Z (Py.digits_value 0 fp))
      by (change 0 with (inject_Z 0); now rewrite <- Zle_Qle).
    assert (Qp : 0 < inject_Z (10 ^ Z.of_nat (String.length fp))).
    { change 0 with (inject_Z 0). rewrite <- Zlt_Qlt.
      apply Z.pow_pos_nonneg; lia. }
    assert (Qd : 0 <= inject_Z (Py.digits_value 0 fp)
                      / inject_Z (10 ^ Z.of_nat (String.length fp))).
    { apply Qle_shift_div_l; [assumption | lra]. }
    lra.
  - destruct (Py.isdigit ip) eqn:E; [|discriminate].
    intros [= <-]. apply isdigit_all_digits in E as [D _].
    pose proof (digits_value_nonneg ip 0 D (Z.le_refl 0)) as Hi.
    change 0 with (inject_Z 0). now rewrite <- Zle_Qle.
Qed.

Lemma classify_detection_nonneg (w : Z) (d : detection) (e : Q * Q) :
  classify_detection w d = Ok (Some e) -> 0 <= snd e.
Proof.
  unfold classify_detection.
  destruct (Py.isdigit (Py.replace1 "." (text d))); [|discriminate].
  destruct (in_center_band w (center_x d)); [|discriminate].
  destruct (Py.float (text d)) as [v|] eqn:F; [|discriminate].
  simpl. intros [= <-]. simpl. eapply float_nonneg; eassumption.
Qed.

(** The four fields are 0, or values of four of the entries. *)
Lemma assign_values (detected_numbers : list (Q * Q)) (a b c d : Q) :
  App3.assign_by_unpacking detected_numbers = Ok (a, b, c, d) ->
  Forall (fun v => v = 0 \/ exists e, In e detected_numbers /\ v = snd e) [a; b; c; d].
Proof.
  unfold App3.assign_by_unpacking.
  destruct (4 <=? List.length (Py.sort detected_numbers))%nat eqn:E.
  - apply Nat.leb_le in E.
    destruct (last4_shape _ E) as (pre & x1 & x2 & x3 & x4 & S & ->).
    simpl. intros [= <- <- <- <-].
    assert (I : forall x, In x [x1; x2; x3; x4] -> In x detected_numbers).
    { intros x Hx. apply (Permutation_in _ (Permutation_sym (sort_perm detected_numbers))).
      rewrite S. apply in_or_app. now right. }
    repeat (apply Forall_cons;
            [right; eexists; split; [|reflexivity]; apply I; simpl; auto |]).
    apply Forall_nil.
  - intros [= <- <- <- <-].
    repeat (apply Forall_cons; [now left|]). apply Forall_nil.
Qed.

(** X7.  The four pollutant fields of every row are never negative, in both
    components. *)
Theorem fields_nonnegative :
  forall (raw_results : list detection) (h w : Z) (filename now : string),
  exists r3 rp,
    App3.process_image_data raw_results h w filename now = Ok r3
    /\ Pipeline.run_body raw_results h w filename now = Ok rp
    /\ (0 <= PM25 r3 /\ 0 <= PM10 r3 /\ 0 <= CO r3 /\ 0 <= CO2 r3)
    /\ (0 <= PM25 rp /\ 0 <= PM10 rp /\ 0 <= CO rp /\ 0 <= CO2 rp).
Proof.
  intros raw_results h w filename now.
  destruct (components_shape raw_results h w filename now)
    as (dn & pm25 & pm10 & co & co2 & s1 & s2 & s3 & Hc & Ha & _ & _ & _ & Hr & Hp).
  rewrite Hr, Hp. eexists. eexists.
  split; [reflexivity|]. split; [reflexivity|]. simpl.
  assert (N : Forall (fun v => 0 <= v) [pm25; pm10; co; co2]).
  { eapply Forall_impl; [|exact (assign_values dn _ _ _ _ Ha)].
    intros v [-> | (e & I & ->)]; [lra|].
    destruct (collect_In w raw_results [] dn Hc e I) as [[] | (d & _ & C)].
    eapply classify_detection_nonneg; eassumption. }
  inversion N as [|? ? N1 N']; subst. inversion N' as [|? ? N2 N'']; subst.
  inversion N'' as [|? ? N3 N''']; subst. inversion N''' as [|? ? N4 _]; subst.
  auto 10.
Qed.

(** X8.  In [pipline_code.py] the [Final_AQI] of a row is the largest of the
    three sub-indices of its PM25, PM10 and CO fields: it is one of them and
    none of them exceeds it. *)
Theorem pipeline_final_aqi_is_worst_sub_index :
  forall (raw_results : list detection) (h w : Z) (filename now : string),
  exists rp si_pm25 si_pm10 si_co,
    Pipeline.run_body raw_results h w filename now = Ok rp
    /\ get_sub_index (PM25 rp) "PM25" = Ok si_pm25
    /\ get_sub_index (PM10 rp) "PM10" = Ok si_pm10
    /\ get_sub_index (CO rp) "CO" = Ok si_co
    /\ (Final_AQI rp = si_pm25 \/ Final_AQI rp = si_pm10 \/ Final_AQI rp = si_co)
    /\ si_pm25 <= Final_AQI rp /\ si_pm10 <= Final_AQI rp /\ si_co <= Final_AQI rp.
Proof.
  intros raw_results h w filename now.
  destruct (components_shape raw_results h w filename now)
    as (dn & pm25 & pm10 & co & co2 & s1 & s2 & s3 & _ & _ & H1 & H2 & H3 & _ & Hp).
  rewrite Hp. eexists. exists s1, s2, s3.
  split; [reflexivity|]. simpl.
  repeat (split; [assumption|]).
  split; [apply max3_cases | apply max3_upper].
Qed.

(** Equal numbers, however written, go through the calculator alike. *)
Lemma Qlt_bool_compat (a a' b b' : Q) :
  a == a' -> b == b' -> Py.Qlt_bool a b = Py.Qlt_bool a' b'.
Proof. intros Ha Hb. unfold Py.Qlt_bool. now rewrite Ha, Hb. Qed.

Lemma max3_compat (a a' b b' c c' : Q) :
  a == a' -> b == b' -> c == c' -> Py.max3 a b c == Py.max3 a' b' c'.
Proof.
  intros Ha Hb Hc. unfold Py.max3.
  rewrite (Qlt_bool_compat a a' b b' Ha Hb).
  destruct (Py.Qlt_bool a' b').
  - rewrite (Qlt_bool_compat b b' c c' Hb Hc). now destruct (Py.Qlt_bool b' c').
  - rewrite (Qlt_bool_compat a a' c c' Ha Hc). now destruct (Py.Qlt_bool a' c').
Qed.

Lemma round_compat (x y : Q) : x == y -> Py.round x = Py.round y.
Proof.
  intro H. unfold Py.round.
  assert (F : Qfloor x = Qfloor y) by now rewrite H.
  rewrite F.
  assert (C : Qcompare (x - inject_Z (Qfloor y)) (1 # 2)
              = Qcompare (y - inject_Z (Qfloor y)) (1 # 2)) by now rewrite H.
  now rewrite C.
Qed.

Lemma scan_bands_compat (c c' : Q) (bands : list band) :
  c == c' -> forallb band_wf bands = true ->
  exists v v', scan_bands c bands = Ok v /\ scan_bands c' bands = Ok v' /\ v == v'.
Proof.
  intro H. induction bands as [|[[[clo chi] ilo] ihi] rest IH]; intro W.
  - exists 500, 500. repeat split; reflexivity.
  - simpl in W. apply andb_true_iff in W as [Wb Wr].
    apply band_wf_iff in Wb. destruct Wb as (Hc & _).
    rewrite !(scan_bands_cons _ _ _ _ _ _ Hc).
    assert (E : in_band c (clo, chi, ilo, ihi) = in_band c' (clo, chi, ilo, ihi))
      by (unfold in_band; now rewrite H).
    rewrite E. destruct (in_band c' (clo, chi, ilo, ihi)); [|auto].
    eexists. eexists. split; [reflexivity|]. split; [reflexivity|].
    now rewrite H.
Qed.

Lemma get_sub_index_compat (c c' : Q) (pollutant : string) :
  c == c' ->
  exists v v',
    get_sub_index c pollutant = Ok v /\ get_sub_index c' pollutant = Ok v' /\ v == v'.
Proof.
  intro H. unfold get_sub_index.
  destruct (dict_get bps pollutant) as [bands|] eqn:D.
  - assert (E : Qle_bool c 0 = Qle_bool c' 0) by now rewrite H.
    rewrite E. destruct (Qle_bool c' 0).
    + exists 0, 0. repeat split; reflexivity.
    + apply scan_bands_compat; [assumption | eapply bps_bands_wf; eauto].
  - exists 0, 0. repeat split; reflexivity.
Qed.

(** X9.  Two rows whose PM25, PM10 and CO fields are equal as numbers have
    equal [Final_AQI], whatever their CO2 fields, file names, times and images,
    and however the readings were written ("45" or "45.0"): CO2 never enters
    the AQI.  This holds in each component. *)
Theorem final_aqi_depends_on_three_fields :
  forall (raw1 raw2 : list detection) (h1 w1 h2 w2 : Z)
         (filename1 now1 filename2 now2 : string) (r1 r2 q1 q2 : row),
    App3.process_image_data raw1 h1 w1 filename1 now1 = Ok r1 ->
    App3.process_image_data raw2 h2 w2 filename2 now2 = Ok r2 ->
    Pipeline.run_body raw1 h1 w1 filename1 now1 = Ok q1 ->
    Pipeline.run_body raw2 h2 w2 filename2 now2 = Ok q2 ->
    PM25 r1 == PM25 r2 -> PM10 r1 == PM10 r2 -> CO r1 == CO r2 ->
    Final_AQI r1 == Final_AQI r2 /\ Final_AQI q1 == Final_AQI q2.
Proof.
  intros raw1 raw2 h1 w1 h2 w2 filename1 now1 filename2 now2 r1 r2 q1 q2
    A1 A2 B1 B2 E25 E10 ECO.
  destruct (components_shape raw1 h1 w1 filename1 now1)
    as (dn & pm25 & pm10 & co & co2 & s1 & s2 & s3 & _ & _ & H1 & H2 & H3 & Hr & Hp).
  destruct (components_shape raw2 h2 w2 filename2 now2)
    as (dn' & pm25' & pm10' & co' & co2' & s1' & s2' & s3' & _ & _ & H1' & H2' & H3' & Hr' & Hp').
  rewrite Hr in A1. rewrite Hr' in A2. rewrite Hp in B1. rewrite Hp' in B2.
  apply Ok_inj in A1, A2, B1, B2. subst r1 r2 q1 q2. simpl in *.
  destruct (get_sub_index_compat pm25 pm25' "PM25" E25) as (v1 & v1' & G1 & G1' & Q1).
  destruct (get_sub_index_compat pm10 pm10' "PM10" E10) as (v2 & v2' & G2 & G2' & Q2).
  destruct (get_sub_index_compat co co' "CO" ECO) as (v3 & v3' & G3 & G3' & Q3).
  rewrite H1 in G1. rewrite H2 in G2. rewrite H3 in G3.
  rewrite H1' in G1'. rewrite H2' in G2'. rewrite H3' in G3'.
  apply Ok_inj in G1, G2, G3, G1', G2', G3'. subst.
  pose proof (max3_compat _ _ _ _ _ _ Q1 Q2 Q3) as M.
  split; [|exact M].
  now rewrite (round_compat _ _ M).
Qed.

Lemma final_aqi_depends_on_three_fields_witness :
  inject_Z 75 == inject_Z 75 /\ 2165 # 29 == 21650 # 290.
Proof.
  apply (final_aqi_depends_on_three_fields
           Samples.display_45 Samples.display_45_zeros 100 100 60 200
           "a.jpg" "t1" "b.png" "t2"
           {| Filename := "a.jpg"; Timestamp := "t1"; PM25 := 45; PM10 := 20;
              CO := 5 # 10; CO2 := 400; Final_AQI := inject_Z 75 |}
           {| Filename := "b.png"; Timestamp := "t2"; PM25 := 450 # 10; PM10 := 20;
              CO := 50 # 100; CO2 := 999; Final_AQI := inject_Z 75 |}
           {| Filename := "a.jpg"; Timestamp := "t1"; PM25 := 45; PM10 := 20;
              CO := 5 # 10; CO2 := 400; Final_AQI := 2165 # 29 |}
           {| Filename := "b.png"; Timestamp := "t2"; PM25 := 450 # 10; PM10 := 20;
              CO := 50 # 100; CO2 := 999; Final_AQI := 21650 # 290 |});
    vm_compute; reflexivity.
Defined.

(** ** The order in which the OCR engine reports the detections *)

(** The loop appends, in the order of [raw_results], what each detection
    contributes. *)
Lemma collect_flat_map (w : Z) (raw_results : list detection) :
  forall acc, collect w raw_results acc = Ok (acc ++ flat_map (kept w) raw_results).
Proof.
  induction raw_results as [|d rest IH]; intro acc; simpl.
  - now rewrite app_nil_r.
  - unfold kept at 1.
    destruct (classify_detection_total w d) as [[e|] ->]; simpl.
    + rewrite IH, <- app_assoc. reflexivity.
    + apply IH.
Qed.

Lemma tuple_lt_irrefl (a : Q * Q) : Py.tuple_lt a a = false.
Proof.
  destruct (Py.tuple_lt a a) eqn:E; [|reflexivity].
  apply tuple_lt_iff in E. lra.
Qed.

Lemma distinct_entries_NoDup (l : list (Q * Q)) : distinct_entries l -> NoDup l.
Proof.
  induction 1 as [|a l F _ IH]; constructor; [|assumption].
  intro I. rewrite Forall_forall in F. specialize (F a I).
  rewrite tuple_lt_irrefl in F. destruct F; discriminate.
Qed.

Lemma sorted_strict (s : list (Q * Q)) :
  StronglySorted lex_le s -> NoDup s ->
  (forall x y, In x s -> In y s ->
               x = y \/ Py.tuple_lt x y = true \/ Py.tuple_lt y x = true) ->
  StronglySorted lex_lt s.
Proof.
  induction 1 as [|a r Sr IH Fa]; intros N C; constructor.
  - apply IH.
    + now inversion N.
    + intros x y Ix Iy. apply C; now right.
  - rewrite Forall_forall in *. intros y Iy.
    specialize (Fa y Iy). unfold lex_le in Fa. unfold lex_lt.
    destruct (C a y (or_introl eq_refl) (or_intror Iy)) as [E | [L | L]].
    + subst y. inversion N. contradiction.
    + assumption.
    + congruence.
Qed.

Lemma sort_distinct_strict (l : list (Q * Q)) :
  distinct_entries l -> StronglySorted lex_lt (Py.sort l).
Proof.
  intro D. apply sorted_strict.
  - apply sort_sorted.
  - apply (Permutation_NoDup (sort_perm l)). now apply distinct_entries_NoDup.
  - intros x y Ix Iy.
    apply (Permutation_in _ (Permutation_sym (sort_perm l))) in Ix, Iy.
    destruct (ForallOrdPairs_In D x y Ix Iy) as [E | [R | R]]; [auto | |];
      destruct R; auto.
Qed.

Lemma sort_permutation_invariant (l l' : list (Q * Q)) :
  Permutation l l' -> distinct_entries l -> Py.sort l' = Py.sort l.
Proof.
  intros P D. apply sort_strictly_increasing.
  - now apply sort_distinct_strict.
  - rewrite <- P. apply sort_perm.
Qed.

(** X10.  The row does not depend on the order in which the OCR engine lists
    its detections, provided no two surviving detections have both the same
    height and the same value: both components return the same row for any
    rearrangement of [raw_results]. *)
Theorem row_independent_of_detection_order :
  forall (raw1 raw2 : list detection) (h w : Z) (filename now : string),
    Permutation raw1 raw2 ->
    distinct_entries (flat_map (kept w) raw1) ->
    App3.process_image_data raw2 h w filename now
      = App3.process_image_data raw1 h w filename now
    /\ Pipeline.run_body raw2 h w filename now
      = Pipeline.run_body raw1 h w filename now.
Proof.
  intros raw1 raw2 h w filename now P D.
  assert (S : Py.sort (flat_map (kept w) raw2) = Py.sort (flat_map (kept w) raw1)).
  { apply sort_permutation_invariant; [|assumption].
    now apply Permutation_flat_map. }
  unfold App3.process_image_data, Pipeline.run_body.
  rewrite !collect_flat_map. simpl.
  unfold App3.assign_by_unpacking, Pipeline.assign_by_index.
  rewrite S. auto.
Qed.

Lemma row_independent_of_detection_order_witness :
  App3.process_image_data (rev Samples.display_45) 100 100 "a.jpg" "t"
    = App3.process_image_data Samples.display_45 100 100 "a.jpg" "t"
  /\ Pipeline.run_body (rev Samples.display_45) 100 100 "a.jpg" "t"
    = Pipeline.run_body Samples.display_45 100 100 "a.jpg" "t".
Proof.
  apply (row_independent_of_detection_order
           Samples.display_45 (rev Samples.display_45) 100 100 "a.jpg" "t").
  - apply Permutation_rev.
  - vm_compute.
    repeat (apply FOP_cons; [repeat (apply Forall_cons; [left; reflexivity|]);
                             apply Forall_nil |]).
    apply FOP_nil.
Defined.

(** ** The batch run *)

Lemma run_body_total (raw_results : list detection) (h w : Z)
    (filename now : string) :
  exists r, Pipeline.run_body raw_results h w filename now = Ok r
            /\ Filename r = filename /\ Timestamp r = now.
Proof.
  destruct (components_shape raw_results h w filename now)
    as (dn & pm25 & pm10 & co & co2 & s1 & s2 & s3 & _ & _ & _ & _ & _ & _ & Hp).
  rewrite Hp. eexists. split; [reflexivity|]. simpl. auto.
Qed.

(** The loop when every call of [readtext] returns, from any rows and lines
    already gathered. *)
Lemma run_loop_rows (clock : nat -> string) (listing : list Pipeline.dir_entry) :
  forallb reads_ok (filter processed listing) = true ->
  forall (all_data : list row) (printed : list string),
  exists rows lines,
    Pipeline.run_loop clock listing all_data printed
      = (printed ++ lines, Ok (all_data ++ rows))
    /\ List.length rows = List.length (filter processed listing)
    /\ List.length lines = List.length rows
    /\ forall k r, nth_error rows k = Some r ->
         exists e img raw_results,
           nth_error (filter processed listing) k = Some e
           /\ Pipeline.imread e = Some img
           /\ Pipeline.readtext img = Ok raw_results
           /\ Pipeline.run_body raw_results
                (fst (Pipeline.shape img)) (snd (Pipeline.shape img))
                (Pipeline.entry_name e) (clock (List.length all_data + k)%nat) = Ok r
           /\ nth_error lines k = Some (Pipeline.aqi_line (Pipeline.entry_name e) r).
Proof.
  induction listing as [|e rest IH]; intros G all_data printed.
  - exists [], []. rewrite !app_nil_r. repeat split; try reflexivity.
    intros [|k] r H; discriminate.
  - cbn [Pipeline.run_loop]. cbn [filter] in *.
    destruct (Pipeline.is_image_name (Pipeline.entry_name e)) eqn:N.
    2:{ assert (Pe : processed e = false) by (unfold processed; now rewrite N).
        rewrite Pe in *. cbn [negb]. now apply IH. }
    destruct (Pipeline.imread e) as [img|] eqn:I.
    2:{ assert (Pe : processed e = false) by (unfold processed; now rewrite N, I).
        rewrite Pe in *. cbn [negb]. now apply IH. }
    assert (Pe : processed e = true) by (unfold processed; now rewrite N, I).
    rewrite Pe in *. cbn [negb]. cbn [forallb] in G.
    apply andb_true_iff in G as [Ge Gr].
    unfold reads_ok in Ge. rewrite I in Ge.
    destruct (Pipeline.readtext img) as [raw|x] eqn:T; [|discriminate].
    destruct (run_body_total raw (fst (Pipeline.shape img))
                (snd (Pipeline.shape img)) (Pipeline.entry_name e)
                (clock (List.length all_data))) as (r0 & B & _ & _).
    rewrite B.
    destruct (IH Gr (all_data ++ [r0])
                (printed ++ [Pipeline.aqi_line (Pipeline.entry_name e) r0]))
      as (rows & lines & R & L1 & L2 & K).
    exists (r0 :: rows), (Pipeline.aqi_line (Pipeline.entry_name e) r0 :: lines).
    rewrite R, <- !app_assoc. cbn [app List.length].
    split; [reflexivity|]. split; [now rewrite L1|]. split; [now rewrite L2|].
    intros [|k] r H.
    + injection H as <-. exists e, img, raw. rewrite Nat.add_0_r. auto 6.
    + destruct (K k r H) as (e' & img' & raw' & A1 & A2 & A3 & A4 & A5).
      exists e', img', raw'. rewrite length_app in A4. cbn [List.length] in A4.
      replace (List.length all_data + S k)%nat
        with (List.length all_data + 1 + k)%nat by lia.
      auto 6.
Qed.

(** The loop when a call of [readtext] raises: it stops there. *)
Lemma run_loop_raises (clock : nat -> string) (listing : list Pipeline.dir_entry) :
  forall (good : list Pipeline.dir_entry) (bad : Pipeline.dir_entry)
         (later : list Pipeline.dir_entry) (img : Pipeline.image) (x : Py.exn)
         (all_data : list row) (printed : list string),
    filter processed listing = good ++ bad :: later ->
    forallb reads_ok good = true ->
    Pipeline.imread bad = Some img ->
    Pipeline.readtext img = Raise x ->
    exists lines,
      Pipeline.run_loop clock listing all_data printed = (printed ++ lines, Raise x)
      /\ List.length lines = List.length good.
Proof.
  induction listing as [|e rest IH];
    intros good bad later img x all_data printed F G I T.
  - destruct good; discriminate.
  - cbn [Pipeline.run_loop]. cbn [filter] in F.
    destruct (Pipeline.is_image_name (Pipeline.entry_name e)) eqn:N.
    2:{ assert (Pe : processed e = false) by (unfold processed; now rewrite N).
        rewrite Pe in F. cbn [negb]. eapply IH; eassumption. }
    destruct (Pipeline.imread e) as [img'|] eqn:I'.
    2:{ assert (Pe : processed e = false) by (unfold processed; now rewrite N, I').
        rewrite Pe in F. cbn [negb]. eapply IH; eassumption. }
    assert (Pe : processed e = true) by (unfold processed; now rewrite N, I').
    rewrite Pe in F. cbn [negb].
    destruct good as [|g good].
    + cbn [app] in F. injection F as -> _.
      rewrite I in I'. injection I' as <-. rewrite T.
      exists []. now rewrite app_nil_r.
    + cbn [app] in F. injection F as -> F.
      cbn [forallb] in G. apply andb_true_iff in G as [Ge Gr].
      unfold reads_ok in Ge. rewrite I' in Ge.
      destruct (Pipeline.readtext img') as [raw|y] eqn:T'; [|discriminate].
      destruct (run_body_total raw (fst (Pipeline.shape img'))
                  (snd (Pipeline.shape img')) (Pipeline.entry_name g)
                  (clock (List.length all_data))) as (r0 & B & _ & _).
      rewrite B.
      destruct (IH good bad later img x (all_data ++ [r0])
                  (printed ++ [Pipeline.aqi_line (Pipeline.entry_name g) r0])
                  F Gr I T) as (lines & R & L).
      exists (Pipeline.aqi_line (Pipeline.entry_name g) r0 :: lines).
      rewrite R, <- app_assoc. cbn [app List.length]. now rewrite L.
Qed.

(** X11.  How [run] ends.  If [os.listdir] raises, so does [run], with nothing
    printed.  If [readtext] raises on a file [run] hands to it, [run] raises
    that exception after one printed line per earlier file, and [to_csv] is
    not reached: no row is written, whatever [to_csv] would do.  If every call
    of [readtext] returns, the loop gathers exactly one row per listed name
    that passes the extension test and that [cv2.imread] could read, in the
    order of the listing, the row number [k] being what the body computes for
    the [k]-th such file at the [k]-th answer of the clock, with its line
    printed; then [run] raises what [to_csv] raises on these rows, or returns
    after one closing line. *)
Theorem run_rows :
  forall (clock : nat -> string) (to_csv : list row -> result unit),
    (forall x, Pipeline.run clock (Raise x) to_csv = ([], Raise x))
    /\ (forall listing good bad later img x,
          filter processed listing = good ++ bad :: later ->
          forallb reads_ok good = true ->
          Pipeline.imread bad = Some img ->
          Pipeline.readtext img = Raise x ->
          exists printed,
            Pipeline.run clock (Ok listing) to_csv = (printed, Raise x)
            /\ List.length printed = List.length good)
    /\ (forall listing,
          forallb reads_ok (filter processed listing) = true ->
          exists all_data printed,
            List.length all_data = List.length (filter processed listing)
            /\ List.length printed = List.length all_data
            /\ map Filename all_data
               = map Pipeline.entry_name (filter processed listing)
            /\ (forall k r, nth_error all_data k = Some r ->
                  exists e img raw_results,
                    nth_error (filter processed listing) k = Some e
                    /\ Pipeline.imread e = Some img
                    /\ Pipeline.readtext img = Ok raw_results
                    /\ Pipeline.run_body raw_results
                         (fst (Pipeline.shape img)) (snd (Pipeline.shape img))
                         (Pipeline.entry_name e) (clock k) = Ok r
                    /\ nth_error printed k
                       = Some (Pipeline.aqi_line (Pipeline.entry_name e) r))
            /\ (forall x, to_csv all_data = Raise x ->
                  Pipeline.run clock (Ok listing) to_csv = (printed, Raise x))
            /\ (forall u, to_csv all_data = Ok u ->
                  Pipeline.run clock (Ok listing) to_csv
                  = (printed ++ [ String "010" "--- Pipeline Complete! CSV Updated ---" ],
                     Ok all_data))).
Proof.
  intros clock to_csv. split; [reflexivity|]. split.
  - intros listing good bad later img x F G I T.
    destruct (run_loop_raises clock listing good bad later img x [] [] F G I T)
      as (lines & R & L).
    exists lines. unfold Pipeline.run. rewrite R. cbn [app]. auto.
  - intros listing G.
    destruct (run_loop_rows clock listing G [] []) as (rows & lines & R & L1 & L2 & K).
    cbn [app List.length Nat.add] in R, K.
    exists rows, lines.
    split; [assumption|]. split; [assumption|].
    split; [|split; [exact K|]].
    + apply nth_error_ext. intro k. rewrite !nth_error_map.
      destruct (nth_error rows k) as [r|] eqn:Nr.
      * destruct (K k r Nr) as (e & img & raw & -> & _ & _ & B & _).
        destruct (run_body_total raw (fst (Pipeline.shape img))
                    (snd (Pipeline.shape img)) (Pipeline.entry_name e) (clock k))
          as (r' & B' & F & _).
        rewrite B in B'. apply Ok_inj in B'. subst r'. simpl. now rewrite F.
      * apply nth_error_None in Nr. rewrite L1 in Nr.
        apply nth_error_None in Nr. now rewrite Nr.
    + unfold Pipeline.run. rewrite R. split.
      * intros x ->. reflexivity.
      * intros u ->. reflexivity.
Qed.

Lemma run_rows_witness :
  (exists printed,
      Pipeline.run (fun _ => "t"%string) (Ok Samples.folder_bad) (fun _ => Ok tt)
      = (printed, Raise (Py.ExternalError "RuntimeError"))
      /\ List.length printed = 1%nat)
  /\ (exists printed,
        Pipeline.run (fun _ => "t"%string) (Ok Samples.folder_bad)
          (fun _ => Raise (Py.ExternalError "PermissionError"))
        = (printed, Raise (Py.ExternalError "RuntimeError"))
        /\ List.length printed = 1%nat)
  /\ (exists all_data printed,
        List.length all_data = 2%nat
        /\ Pipeline.run (fun _ => "t"%string) (Ok Samples.folder_ok) (fun _ => Ok tt)
           = (printed ++ [ String "010" "--- Pipeline Complete! CSV Updated ---" ],
              Ok all_data)).
Proof.
  split; [|split].
  3:{ destruct (proj2 (proj2 (run_rows (fun _ => "t"%string) (fun _ => Ok tt)))
                  Samples.folder_ok eq_refl)
        as (all_data & printed & L & _ & _ & _ & _ & S).
      exists all_data, printed. split; [exact L | apply (S tt); reflexivity]. }
  - apply (proj1 (proj2 (run_rows (fun _ => "t"%string) (fun _ => Ok tt)))
             Samples.folder_bad
             [ {| Pipeline.entry_name := "a.JPG";
                  Pipeline.imread :=
                    Some {| Pipeline.shape := (100%Z, 100%Z);
                            Pipeline.readtext := Ok Samples.display_45 |} |} ]
             {| Pipeline.entry_name := "b.png";
                Pipeline.imread :=
                  Some {| Pipeline.shape := (100%Z, 100%Z);
                          Pipeline.readtext :=
                            Raise (Py.ExternalError "RuntimeError") |} |}
             [ {| Pipeline.entry_name := "c.jpg";
                  Pipeline.imread :=
                    Some {| Pipeline.shape := (100%Z, 100%Z);
                            Pipeline.readtext := Ok Samples.display_90 |} |} ]
             {| Pipeline.shape := (100%Z, 100%Z);
                Pipeline.readtext := Raise (Py.ExternalError "RuntimeError") |}
             (Py.ExternalError "RuntimeError")); reflexivity.
  - apply (proj1 (proj2 (run_rows (fun _ => "t"%string)
                           (fun _ => Raise (Py.ExternalError "PermissionError"))))
             Samples.folder_bad
             [ {| Pipeline.entry_name := "a.JPG";
                  Pipeline.imread :=
                    Some {| Pipeline.shape := (100%Z, 100%Z);
                            Pipeline.readtext := Ok Samples.display_45 |} |} ]
             {| Pipeline.entry_name := "b.png";
                Pipeline.imread :=
                  Some {| Pipeline.shape := (100%Z, 100%Z);
                          Pipeline.readtext :=
                            Raise (Py.ExternalError "RuntimeError") |} |}
             [ {| Pipeline.entry_name := "c.jpg";
                  Pipeline.imread :=
                    Some {| Pipeline.shape := (100%Z, 100%Z);
                            Pipeline.readtext := Ok Samples.display_90 |} |} ]
             {| Pipeline.shape := (100%Z, 100%Z);
                Pipeline.readtext := Raise (Py.ExternalError "RuntimeError") |}
             (Py.ExternalError "RuntimeError")); reflexivity.
Defined.

(** On the folder [Samples.folder_ok] the run writes two rows, for a.JPG and
    d.jpeg, and prints three lines. *)
Lemma run_folder_ok :
  exists r1 r2,
    Pipeline.run (fun n => if Nat.eqb n 0 then "t0" else "t1")%string
      (Ok Samples.folder_ok) (fun _ => Ok tt)
    = ([ " a.JPG -> AQI: 74"; " d.jpeg -> AQI: 200";
         String "010" "--- Pipeline Complete! CSV Updated ---" ]%string,
       Ok [ r1; r2 ])
    /\ Filename r1 = "a.JPG"%string /\ Timestamp r1 = "t0"%string
    /\ Filename r2 = "d.jpeg"%string /\ Timestamp r2 = "t1"%string.
Proof.
  eexists. eexists. split; [vm_compute; reflexivity|]. repeat split.
Qed.

(** ** The names of the image files *)

Lemma endswith_iff (s suffix : string) :
  Py.endswith s suffix = true <-> exists pre, s = (pre ++ suffix)%string.
Proof.
  induction s as [|c s IH]; cbn [Py.endswith].
  - rewrite orb_false_r. split.
    + intro H. apply String.eqb_eq in H. exists EmptyString. now subst.
    + intros [pre H]. destruct pre; simpl in H; [|discriminate].
      subst. apply String.eqb_refl.
  - rewrite orb_true_iff. split.
    + intros [H | H].
      * apply String.eqb_eq in H. exists EmptyString. now subst.
      * apply IH in H as [pre ->]. now exists (String c pre).
    + intros [pre H]. destruct pre as [|c' pre]; simpl in H.
      * left. subst. apply String.eqb_refl.
      * right. injection H as -> ->. apply IH. now exists pre.
Qed.

Lemma lower_app (a b : string) :
  Py.lower (a ++ b) = (Py.lower a ++ Py.lower b)%string.
Proof. induction a as [|c a IH]; simpl; [reflexivity | now rewrite IH]. Qed.

Lemma lower_split (s a b : string) :
  Py.lower s = (a ++ b)%string ->
  exists s1 s2, s = (s1 ++ s2)%string /\ Py.lower s1 = a /\ Py.lower s2 = b.
Proof.
  revert s. induction a as [|c a IH]; intros s H.
  - exists EmptyString, s. auto.
  - destruct s as [|x s]; simpl in H; [discriminate|].
    injection H as Hc Hs. destruct (IH s Hs) as (s1 & s2 & -> & L1 & L2).
    exists (String x s1), s2. simpl. rewrite Hc, L1. auto.
Qed.

(** X12.  A file name is taken for an image exactly when it ends in an
    extension that reads .jpg, .png or .jpeg once put in lower case: the test
    does not depend on the case of the letters, and needs the dot. *)
Theorem is_image_name_iff :
  forall filename : string,
    Pipeline.is_image_name filename = true <->
    exists stem ext,
      filename = (stem ++ ext)%string
      /\ (Py.lower ext = ".jpg"%string \/ Py.lower ext = ".png"%string
          \/ Py.lower ext = ".jpeg"%string).
Proof.
  intro filename. unfold Pipeline.is_image_name, Py.endswith_any. simpl existsb.
  rewrite orb_false_r, !orb_true_iff, !endswith_iff. split.
  - intros [[pre H] | [[pre H] | [pre H]]];
      apply lower_split in H as (s1 & s2 & -> & _ & L); exists s1, s2; auto.
  - intros (stem & ext & -> & [L | [L | L]]); rewrite lower_app, L;
      [left | right; left | right; right]; now exists (Py.lower stem).
Qed.

(** ** Readings that the table covers, and the distance between the two logs *)

Lemma matching_bands_nonempty (conc : Q) (pollutant : string) (b : band) :
  In b (bands_of pollutant) -> in_band conc b = true ->
  matching_bands conc pollutant <> [].
Proof.
  intros I B E. unfold matching_bands in E.
  assert (F : In b (filter (in_band conc) (bands_of pollutant)))
    by (apply filter_In; auto).
  rewrite E in F. contradiction.
Qed.

(** X13.  Every whole-number concentration from 0 to 500 lies in a band of
    PM25 and in a band of PM10, and every concentration from 0 to 100 written
    with one decimal lies in a band of CO: the gaps of the table only catch
    readings with more decimals than that. *)
Theorem coarse_readings_covered :
  (forall n : Z, (0 <= n <= 500)%Z ->
     matching_bands (inject_Z n) "PM25" <> []
     /\ matching_bands (inject_Z n) "PM10" <> [])
  /\ (forall n : Z, (0 <= n <= 1000)%Z ->
        matching_bands (n # 10) "CO" <> []).
Proof.
  split.
  - intros n H. split.
    + assert (C : (n <= 30 \/ 31 <= n <= 60 \/ 61 <= n <= 90 \/ 91 <= n <= 120
                   \/ 121 <= n <= 250 \/ 251 <= n)%Z) by lia.
      destruct C as [C | [C | [C | [C | [C | C]]]]];
        [ apply (matching_bands_nonempty _ _ (0, 30, 0, 50))
        | apply (matching_bands_nonempty _ _ (31, 60, 51, 100))
        | apply (matching_bands_nonempty _ _ (61, 90, 101, 200))
        | apply (matching_bands_nonempty _ _ (91, 120, 201, 300))
        | apply (matching_bands_nonempty _ _ (121, 250, 301, 400))
        | apply (matching_bands_nonempty _ _ (250, 500, 401, 500)) ];
        try (simpl; tauto);
        apply in_band_iff; unfold Qle; simpl; lia.
    + assert (C : (n <= 50 \/ 51 <= n <= 100 \/ 101 <= n <= 250 \/ 251 <= n <= 350
                   \/ 351 <= n <= 430 \/ 431 <= n)%Z) by lia.
      destruct C as [C | [C | [C | [C | [C | C]]]]];
        [ apply (matching_bands_nonempty _ _ (0, 50, 0, 50))
        | apply (matching_bands_nonempty _ _ (51, 100, 51, 100))
        | apply (matching_bands_nonempty _ _ (101, 250, 101, 200))
        | apply (matching_bands_nonempty _ _ (251, 350, 201, 300))
        | apply (matching_bands_nonempty _ _ (351, 430, 301, 400))
        | apply (matching_bands_nonempty _ _ (430, 500, 401, 500)) ];
        try (simpl; tauto);
        apply in_band_iff; unfold Qle; simpl; lia.
  - intros n H.
    assert (C : (n <= 10 \/ 11 <= n <= 20 \/ 21 <= n <= 100 \/ 101 <= n <= 170
                 \/ 171 <= n <= 340 \/ 341 <= n)%Z) by lia.
    destruct C as [C | [C | [C | [C | [C | C]]]]];
      [ apply (matching_bands_nonempty _ _ (0, 1, 0, 50))
      | apply (matching_bands_nonempty _ _ (11 # 10, 2, 51, 100))
      | apply (matching_bands_nonempty _ _ (21 # 10, 10, 101, 200))
      | apply (matching_bands_nonempty _ _ (101 # 10, 17, 201, 300))
      | apply (matching_bands_nonempty _ _ (171 # 10, 34, 301, 400))
      | apply (matching_bands_nonempty _ _ (341 # 10, 100, 401, 500)) ];
      try (simpl; tauto);
      apply in_band_iff; unfold Qle; simpl; lia.
Qed.

Lemma coarse_readings_covered_witness :
  matching_bands (inject_Z 31) "PM25" <> []
  /\ matching_bands (inject_Z 31) "PM10" <> [].
Proof.
  apply (proj1 coarse_readings_covered 31%Z). lia.
Defined.

(** X14.  For every image the [Final_AQI] logged by [app3.py] and the one
    logged by [pipline_code.py] differ by at most one half. *)
Theorem final_aqi_gap_at_most_half :
  forall (raw_results : list detection) (h w : Z) (filename now : string),
  exists r3 rp,
    App3.process_image_data raw_results h w filename now = Ok r3
    /\ Pipeline.run_body raw_results h w filename now = Ok rp
    /\ Final_AQI rp - (1 # 2) <= Final_AQI r3 <= Final_AQI rp + (1 # 2).
Proof.
  intros raw_results h w filename now.
  destruct (components_agree_up_to_rounding raw_results h w filename now)
    as (r3 & rp & H3 & Hp & _ & _ & _ & _ & E).
  exists r3, rp. split; [assumption|]. split; [assumption|].
  rewrite E. apply round_near.
Qed.
